(** * Backstage / Infoblox configuration scripts: a shallow embedding

    The development follows the two scripts of the repository:

    - [scripts/merge-backstage-config.py]   (class [BackstageMerger]),
      embedded in [Module Merger];
    - [scripts/manage-backstage-resources.py] (class
      [InfobloxResourceManager]), embedded in [Module Manager], with the
      fragment of Python's [re] its validator needs in [Module Re].

    Python values are the values [yaml.safe_load] produces: null,
    booleans, integers, strings, sequences and string-keyed mappings.
    Floats, dates and non-string mapping keys are not modelled.  Strings
    are byte strings, the UTF-8 bytes of the text: on ASCII text a byte is
    a character, and the byte-wise order of UTF-8 text is the code-point
    order Python uses.

    Two things the scripts rely on lie outside them and are taken as
    parameters: what PyYAML reads back from a text the merger saved
    ([reads_as] in [Merger]), and which characters outside ASCII the
    interpreter counts as decimal digits ([unicode_digit] in [Re]).

    A Python call that raises an uncaught exception ([AttributeError] on
    [.get] of a non-mapping, [TypeError] on an unsupported comparison or
    membership test) yields [Exn]; which exception it is, is not tracked.
    [print] is not modelled, except that an expression evaluated for a
    message is still evaluated, since it may raise. *)

From Stdlib Require Import Bool List ZArith Lia Ascii String Permutation
  Sorted.
Import ListNotations.
Open Scope string_scope.
Open Scope list_scope.

Set Implicit Arguments.

(** ** Results of calls that may raise *)

Inductive res (A : Type) : Type :=
| Ok (x : A)
| Exn.
Arguments Exn {A}.

Definition bind {A B : Type} (m : res A) (f : A -> res B) : res B :=
  match m with
  | Ok x => f x
  | Exn => Exn
  end.

Notation "x <- m ;; k" := (bind m (fun x => k))
  (at level 61, m at next level, right associativity).

(** A [for] loop over a list that threads an accumulator and stops at the
    first exception. *)
Fixpoint for_each {A S : Type} (body : S -> A -> res S) (l : list A) (s : S)
  : res S :=
  match l with
  | [] => Ok s
  | x :: l' => s' <- body s x ;; for_each body l' s'
  end.

(** ** Insertion-ordered dictionaries with string keys *)

Definition dict (V : Type) : Type := list (string * V).

Fixpoint dget {V : Type} (d : dict V) (k : string) : option V :=
  match d with
  | [] => None
  | (k', v) :: d' => if (k' =? k)%string then Some v else dget d' k
  end.

Definition dmem {V : Type} (d : dict V) (k : string) : bool :=
  match dget d k with
  | Some _ => true
  | None => false
  end.

(** [d[k] = v]: the value is replaced where the key stands, a new key goes
    to the end. *)
Fixpoint dset {V : Type} (d : dict V) (k : string) (v : V) : dict V :=
  match d with
  | [] => [(k, v)]
  | (k', v') :: d' =>
      if (k' =? k)%string then (k', v) :: d' else (k', v') :: dset d' k v
  end.

Definition keys {V : Type} (d : dict V) : list string := map fst d.

Fixpoint str_mem (k : string) (l : list string) : bool :=
  match l with
  | [] => false
  | k' :: l' => (k' =? k)%string || str_mem k l'
  end.

(** A Python dictionary holds a key once. *)
Fixpoint uniq (l : list string) : bool :=
  match l with
  | [] => true
  | k :: l' => negb (str_mem k l') && uniq l'
  end.

Definition dict_wf {V : Type} (d : dict V) : bool := uniq (keys d).

(** ** Python values *)

#[warnings="-register-all"]
Inductive value : Type :=
| VNone
| VBool (b : bool)
| VInt (z : Z)
| VStr (s : string)
| VList (l : list value)
| VDict (d : list (string * value)).

Definition is_nil {A : Type} (l : list A) : bool :=
  match l with
  | [] => true
  | _ :: _ => false
  end.

(** Truth value of an object in a condition. *)
Definition truthy (v : value) : bool :=
  match v with
  | VNone => false
  | VBool b => b
  | VInt z => negb (z =? 0)%Z
  | VStr s => negb (s =? "")%string
  | VList l => negb (is_nil l)
  | VDict d => negb (is_nil d)
  end.

Definition Z_of_bool (b : bool) : Z := if b then 1%Z else 0%Z.

(** [a == b]. *)
Fixpoint py_eq (a b : value) {struct a} : bool :=
  match a, b with
  | VNone, VNone => true
  | VBool x, VBool y => Bool.eqb x y
  | VBool x, VInt z => (Z_of_bool x =? z)%Z
  | VInt z, VBool x => (z =? Z_of_bool x)%Z
  | VInt x, VInt y => (x =? y)%Z
  | VStr x, VStr y => (x =? y)%string
  | VList xs, VList ys =>
      (fix all2 (xs ys : list value) {struct xs} : bool :=
         match xs, ys with
         | [], [] => true
         | x :: xs', y :: ys' => py_eq x y && all2 xs' ys'
         | _, _ => false
         end) xs ys
  | VDict xs, VDict ys =>
      (List.length xs =? List.length ys)%nat &&
      (fix sub (xs : list (string * value)) {struct xs} : bool :=
         match xs with
         | [] => true
         | (k, v) :: xs' =>
             match dget ys k with
             | Some w => py_eq v w
             | None => false
             end && sub xs'
         end) xs
  | _, _ => false
  end.

(** Three-way ordering behind [<], [>=] and [sorted]: strings by code
    point, numbers by value, sequences by their first differing pair;
    everything else is unorderable. *)
Fixpoint py_compare (a b : value) {struct a} : res comparison :=
  match a, b with
  | VStr x, VStr y => Ok (String.compare x y)
  | VInt x, VInt y => Ok (Z.compare x y)
  | VInt x, VBool y => Ok (Z.compare x (Z_of_bool y))
  | VBool x, VInt y => Ok (Z.compare (Z_of_bool x) y)
  | VBool x, VBool y => Ok (Z.compare (Z_of_bool x) (Z_of_bool y))
  | VList xs, VList ys =>
      (fix lex (xs ys : list value) {struct xs} : res comparison :=
         match xs, ys with
         | [], [] => Ok Eq
         | [], _ :: _ => Ok Lt
         | _ :: _, [] => Ok Gt
         | x :: xs', y :: ys' =>
             if py_eq x y then lex xs' ys' else py_compare x y
         end) xs ys
  | _, _ => Exn
  end.

(** [a >= b]. *)
Definition py_ge (a b : value) : res bool :=
  c <- py_compare a b ;;
  Ok (match c with Lt => false | _ => true end).

(** [a < b]. *)
Definition py_lt (a b : value) : res bool :=
  c <- py_compare a b ;;
  Ok (match c with Lt => true | _ => false end).

(** [v.get(k, default)]: only mappings have [.get]. *)
Definition py_get (v : value) (k : string) (default : value) : res value :=
  match v with
  | VDict d =>
      Ok (match dget d k with
          | Some x => x
          | None => default
          end)
  | _ => Exn
  end.

(** A loaded document used as a mapping ([.items()], item assignment). *)
Definition as_dict (v : value) : res (dict value) :=
  match v with
  | VDict d => Ok d
  | _ => Exn
  end.

(** What a path holds, as far as [yaml.safe_load] sees it: no file, text
    that does not parse, or a parsed document. *)
Inductive file : Type :=
| Absent
| Unparsable
| Parsed (v : value).

(** A directory: what each file name holds. *)
Definition directory : Type := string -> file.

Definition file_exists (f : file) : bool :=
  match f with
  | Absent => false
  | _ => true
  end.

(** The directory after [name] is (over)written with [f]. *)
Definition write (d : directory) (name : string) (f : file) : directory :=
  fun n => if (n =? name)%string then f else d n.

(** [del d[k]], for a key [d] holds. *)
Fixpoint ddel {V : Type} (d : dict V) (k : string) : dict V :=
  match d with
  | [] => []
  | (k', v) :: d' => if (k' =? k)%string then d' else (k', v) :: ddel d' k
  end.

(** [needle in hay] on strings. *)
Fixpoint str_contains (needle hay : string) : bool :=
  String.prefix needle hay ||
  match hay with
  | EmptyString => false
  | String _ hay' => str_contains needle hay'
  end.

(** * scripts/merge-backstage-config.py *)

Module Merger.

(** A conflict found by [detect_conflicts].  The script renders each one as
    a message; the model keeps what the message is built from: the resource
    key and the identifiers.  [IdMismatch] is the message
    "Existing BackstageId ... vs New BackstageId ...", [ManualOverwrite] the
    message "Attempting to overwrite manual resource with Backstage
    resource ...". *)
Inductive conflict : Type :=
| IdMismatch (key : string) (existing_backstage_id new_backstage_id : value)
| ManualOverwrite (key : string) (new_backstage_id : value).

Definition conflict_key (c : conflict) : string :=
  match c with
  | IdMismatch key _ _ => key
  | ManualOverwrite key _ => key
  end.

(** Body of the loop of [detect_conflicts]. *)
Definition detect_step (existing : dict value) (conflicts : list conflict)
    (item : string * value) : res (list conflict) :=
  let (key, new_value) := item in
  match dget existing key with
  | Some existing_value =>
      existing_tags <- py_get existing_value "ea_tags" (VDict []) ;;
      new_tags <- py_get new_value "ea_tags" (VDict []) ;;
      existing_backstage_id <- py_get existing_tags "BackstageId" VNone ;;
      new_backstage_id <- py_get new_tags "BackstageId" VNone ;;
      if truthy existing_backstage_id && truthy new_backstage_id
         && negb (py_eq existing_backstage_id new_backstage_id)
      then Ok (conflicts ++
               [IdMismatch key existing_backstage_id new_backstage_id])
      else if negb (truthy existing_backstage_id) && truthy new_backstage_id
      then Ok (conflicts ++ [ManualOverwrite key new_backstage_id])
      else Ok conflicts
  | None => Ok conflicts
  end.

Definition detect_conflicts (existing new : dict value)
  : res (list conflict) :=
  for_each (detect_step existing) new [].

(** Body of the loop of [resolve_conflicts].  A strategy other than the
    three named ones falls through every [elif]: a shared key is left as
    it is. *)
Definition resolve_step (existing : dict value) (strategy : string)
    (merged : dict value) (item : string * value) : res (dict value) :=
  let (key, new_value) := item in
  match dget existing key with
  | Some existing_value =>
      existing_tags <- py_get existing_value "ea_tags" (VDict []) ;;
      new_tags <- py_get new_value "ea_tags" (VDict []) ;;
      existing_backstage_id <- py_get existing_tags "BackstageId" VNone ;;
      new_backstage_id <- py_get new_tags "BackstageId" VNone ;;
      if (strategy =? "backstage-wins")%string then
        if truthy new_backstage_id
        then Ok (dset merged key new_value)
        else Ok merged
      else if (strategy =? "manual-protected")%string then
        if negb (truthy existing_backstage_id) && truthy new_backstage_id
        then Ok merged
        else Ok (dset merged key new_value)
      else if (strategy =? "timestamp-wins")%string then
        existing_time <- py_get existing_tags "CreatedAt" (VStr "1970-01-01") ;;
        new_time <- py_get new_tags "CreatedAt" (VStr "1970-01-01") ;;
        newer <- py_ge new_time existing_time ;;
        if newer then Ok (dset merged key new_value) else Ok merged
      else Ok merged
  | None =>
      let merged' := dset merged key new_value in
      new_tags <- py_get new_value "ea_tags" (VDict []) ;;
      backstage_id <- py_get new_tags "BackstageId" (VStr key) ;;
      Ok merged'
  end.

(** [merged = existing.copy()] is a shallow copy: the model's dictionaries
    are values, so the copy is [existing] itself. *)
Definition resolve_conflicts (existing new : dict value) (strategy : string)
  : res (dict value) :=
  let merged := existing in
  for_each (resolve_step existing strategy) new merged.

(** [load_yaml_safely]: a missing file and a [YAMLError] give [{}], and so
    does a document that is falsy ([... or {}]).  The "# Environment:"
    lines removed before parsing are comments and do not change the parsed
    document. *)
Definition load_yaml_safely (f : file) : value :=
  match f with
  | Absent => VDict []
  | Unparsable => VDict []
  | Parsed v => if truthy v then v else VDict []
  end.

(** What [save_yaml_with_header] writes: a header of comments that names
    the record type (and the merger's environment and the time), a comment
    that lists the recent additions when there are any, and the mapping as
    [yaml.dump] renders it, or one more comment when the mapping is
    empty. *)
Record saved : Type := {
  header_record_type : string;
  recent_additions : option (list string);
  dumped : option (dict value)
}.

Definition save_yaml_with_header (data : dict value) (record_type : string)
    (additions : list string) : saved :=
  {| header_record_type := record_type;
     recent_additions :=
       if negb (is_nil additions) then Some additions else None;
     dumped := if negb (is_nil data) then Some data else None |}.

(** The methods [merge_file] calls, in the order it calls them. *)
Inductive call : Type :=
| CallDetect
| CallResolve
| CallSave.

Record outcome : Type := {
  returned : bool;
  target_after : file;
  calls : list call
}.

(** [record_types.get(backstage_file.name, "DNS")]. *)
Definition record_types : dict string :=
  [("a-records.yaml", "A");
   ("cname-records.yaml", "CNAME");
   ("host-records.yaml", "Host");
   ("networks.yaml", "Network");
   ("dns-zones.yaml", "DNS Zone")].

Definition record_type_for (file_name : string) : string :=
  match dget record_types file_name with
  | Some t => t
  | None => "DNS"
  end.

(** [create_backup]: each configuration file the target directory holds
    is copied into the backup directory, which [mkdir(exist_ok=True)]
    leaves as it was otherwise.  The directory's time-stamped name, which
    the method returns, is not modelled. *)
Definition config_files : list string :=
  ["a-records.yaml"; "cname-records.yaml"; "host-records.yaml";
   "networks.yaml"; "dns-zones.yaml"].

Definition backup_step (target backup : directory) (config_file : string)
  : directory :=
  if file_exists (target config_file)
  then write backup config_file (target config_file)
  else backup.

Definition create_backup (target backup_dir : directory) : directory :=
  fold_left (backup_step target) config_files backup_dir.

Definition backstage_files : list string :=
  ["a-records.yaml"; "cname-records.yaml"; "host-records.yaml";
   "networks.yaml"; "dns-zones.yaml"].

Section Files.

(** What [yaml.safe_load] later makes of a saved text is PyYAML's doing,
    and it is not always the mapping that was dumped: the additions go
    into their comment as they are, so that a key with a line break in it
    ends the comment and leaves text of its own on the next line, and
    [allow_unicode=True] writes every character unescaped.  [reads_as]
    stands for it: the file a path holds once the text is written. *)
Variable reads_as : saved -> file.

(** [merge_file], given the name of the Backstage file and what it and
    the target file hold.  A loaded document that is not a mapping makes
    [.items()], the key lookups or the item assignment raise. *)
Definition merge_file (file_name : string) (backstage_file target_file : file)
    (strategy : string) : res outcome :=
  let backstage_data := load_yaml_safely backstage_file in
  let existing_data := load_yaml_safely target_file in
  if negb (truthy backstage_data) then
    Ok {| returned := false; target_after := target_file; calls := [] |}
  else
    new <- as_dict backstage_data ;;
    existing <- as_dict existing_data ;;
    conflicts <- detect_conflicts existing new ;;
    if negb (is_nil conflicts) && (strategy =? "fail-on-conflict")%string then
      Ok {| returned := false; target_after := target_file;
            calls := [CallDetect] |}
    else
      merged_data <- resolve_conflicts existing new strategy ;;
      let record_type := record_type_for file_name in
      let new_keys := keys new in
      Ok {| returned := true;
            target_after :=
              reads_as (save_yaml_with_header merged_data record_type
                                              new_keys);
            calls := [CallDetect; CallResolve; CallSave] |}.

(** [merge_all_files]: [results] maps a file name to [True], [False] or
    [None]; [merge_file] reads and writes the target file of the same
    name. *)
Definition merge_all_step (source_dir : directory) (strategy : string)
    (state : dict (option bool) * directory) (file_name : string)
  : res (dict (option bool) * directory) :=
  let (results, target) := state in
  if file_exists (source_dir file_name) then
    merged <- merge_file file_name (source_dir file_name) (target file_name)
                strategy ;;
    Ok (dset results file_name (Some (returned merged)),
        write target file_name (target_after merged))
  else Ok (dset results file_name None, target).

Definition merge_all_files (source_dir target : directory) (strategy : string)
  : res (dict (option bool) * directory) :=
  for_each (merge_all_step source_dir strategy) backstage_files ([], target).

End Files.

End Merger.

(** * The fragment of Python's [re] the validator uses *)

Module Re.

Inductive regex : Type :=
| Eps                               (* the empty pattern *)
| Bol                               (* ^ *)
| Eol                               (* $ *)
| Chr (c : ascii)                   (* a literal ASCII character *)
| Class (p : ascii -> bool)         (* [...] of ASCII characters *)
| Digit                             (* \d *)
| Cat (r1 r2 : regex)
| Alt (r1 r2 : regex)               (* r1|r2 *)
| Plus (r : regex)                  (* r+ *)
| Repeat (n : nat) (r : regex).     (* r{n} *)

Fixpoint Lit (s : string) : regex :=
  match s with
  | EmptyString => Eps
  | String c s' => Cat (Chr c) (Lit s')
  end.

Definition newline : ascii := "010"%char.

(** Without [re.MULTILINE], [$] matches at the end of the string and just
    before a newline that ends the string. *)
Definition at_eol (rest : string) : bool :=
  match rest with
  | EmptyString => true
  | String c EmptyString => (c =? newline)%char
  | _ => false
  end.

Definition in_range (lo hi c : ascii) : bool :=
  (nat_of_ascii lo <=? nat_of_ascii c)%nat &&
  (nat_of_ascii c <=? nat_of_ascii hi)%nat.

(** The ten ASCII digits. *)
Definition ascii_digit (c : ascii) : bool := in_range "0" "9" c.

(** A byte that is an ASCII character by itself. *)
Definition is_ascii (c : ascii) : bool := (nat_of_ascii c <? 128)%nat.

Section Engine.

(** A text is its UTF-8 bytes, while a pattern goes by characters.  An
    ASCII character is one byte and every byte of any other character is
    above 127, so a literal ASCII character and a class of ASCII characters
    are decided on the first byte.  [\d] is not: in a [str] pattern it
    matches the decimal digits of every script (Unicode category Nd), as
    the interpreter's Unicode tables list them.  [unicode_digit rest] is
    what follows the first character of [rest] when that character is a
    decimal digit outside ASCII, and [None] otherwise. *)
Variable unicode_digit : string -> option string.

(** What follows one [\d] at the head of [rest]. *)
Definition after_digit (rest : string) : option string :=
  match rest with
  | String c rest' =>
      if ascii_digit c then Some rest'
      else if is_ascii c then None
      else unicode_digit rest
  | EmptyString => None
  end.

(** A backtracking matcher: [accept r pos rest k] tries every way [r] can
    match at offset [pos], where [rest] is the text from there on, and asks
    the continuation [k] about what follows.  [r+] tries more repetitions
    before fewer; a repetition that is useful consumes a character, so
    there are at most as many as bytes left. *)
Fixpoint accept (r : regex) (pos : nat) (rest : string)
    (k : nat -> string -> bool) {struct r} : bool :=
  match r with
  | Eps => k pos rest
  | Bol => (pos =? 0)%nat && k pos rest
  | Eol => at_eol rest && k pos rest
  | Chr c =>
      match rest with
      | String c' rest' => (c' =? c)%char && k (S pos) rest'
      | EmptyString => false
      end
  | Class p =>
      match rest with
      | String c' rest' => p c' && k (S pos) rest'
      | EmptyString => false
      end
  | Digit =>
      match after_digit rest with
      | Some rest' => k (S pos) rest'
      | None => false
      end
  | Cat r1 r2 => accept r1 pos rest (fun pos' rest' => accept r2 pos' rest' k)
  | Alt r1 r2 => accept r1 pos rest k || accept r2 pos rest k
  | Plus r1 =>
      (fix more (fuel pos : nat) (rest : string) {struct fuel} : bool :=
         accept r1 pos rest
           (fun pos' rest' =>
              match fuel with
              | S fuel' => more fuel' pos' rest'
              | O => false
              end || k pos' rest'))
        (String.length rest) pos rest
  | Repeat n r1 =>
      (fix times (n pos : nat) (rest : string) {struct n} : bool :=
         match n with
         | O => k pos rest
         | S n' => accept r1 pos rest (fun pos' rest' => times n' pos' rest')
         end) n pos rest
  end.

(** [bool(re.match(pattern, s))]: a match anchored at offset 0, which need
    not reach the end of [s]. *)
Definition re_match (pattern : regex) (s : string) : bool :=
  accept pattern 0 s (fun _ _ => true).

End Engine.

End Re.

(** * scripts/manage-backstage-resources.py *)

Module Manager.

(** One value of [self.backstage_resources]. *)
Record resource_info : Type := {
  resource_name : string;
  entity_name : value;
  source_file : string;
  config : dict value;
  created_at : value;
  owner : value
}.

(** [self.backstage_resources]: a dictionary keyed by [BackstageId], in
    insertion order.  Keys are compared with [==]; a sequence or a mapping
    cannot be a key. *)
Definition registry : Type := list (value * resource_info).

Definition hashable (v : value) : bool :=
  match v with
  | VList _ | VDict _ => false
  | _ => true
  end.

Fixpoint rget (r : registry) (k : value) : option resource_info :=
  match r with
  | [] => None
  | (k', info) :: r' => if py_eq k' k then Some info else rget r' k
  end.

Fixpoint rset (r : registry) (k : value) (info : resource_info) : registry :=
  match r with
  | [] => [(k, info)]
  | (k', info') :: r' =>
      if py_eq k' k then (k', info) :: r' else (k', info') :: rset r' k info
  end.

(** Body of the loop of [_extract_backstage_resources]. *)
Definition extract_step (source_file : string) (reg : registry)
    (item : string * value) : res registry :=
  let (resource_name, resource_config) := item in
  match resource_config with
  | VDict cfg =>
      ea_tags <- py_get resource_config "ea_tags" (VDict []) ;;
      created_by <- py_get ea_tags "CreatedBy" VNone ;;
      if py_eq created_by (VStr "backstage") then
        backstage_id <- py_get ea_tags "BackstageId" VNone ;;
        entity_name <- py_get ea_tags "BackstageEntity" VNone ;;
        if truthy backstage_id then
          created_at <- py_get ea_tags "CreatedAt" VNone ;;
          owner <- py_get ea_tags "Owner" VNone ;;
          if hashable backstage_id then
            Ok (rset reg backstage_id
                  {| resource_name := resource_name;
                     entity_name := entity_name;
                     source_file := source_file;
                     config := cfg;
                     created_at := created_at;
                     owner := owner |})
          else Exn
        else Ok reg
      else Ok reg
  | _ => Ok reg
  end.

Definition extract_backstage_resources (data : dict value)
    (source_file : string) (reg : registry) : res registry :=
  for_each (extract_step source_file) data reg.

Definition config_files : list string :=
  ["a-records.yaml"; "cname-records.yaml"; "host-records.yaml";
   "networks.yaml"; "dns-zones.yaml"].

(** Body of the loop of [_load_configurations]; [fs] is the configuration
    directory.  Here a [YAMLError] is not caught. *)
Definition load_step (fs : string -> file) (reg : registry)
    (config_file : string) : res registry :=
  match fs config_file with
  | Absent => Ok reg
  | Unparsable => Exn
  | Parsed v =>
      data <- as_dict (if truthy v then v else VDict []) ;;
      extract_backstage_resources data config_file reg
  end.

Definition load_configurations (fs : string -> file) : res registry :=
  for_each (load_step fs) config_files [].

(** [_get_record_type]. *)
Definition get_record_type (config : dict value) : string :=
  if dmem config "ip_addr" && dmem config "fqdn" then
    if truthy (match dget config "allocate_ip" with
               | Some v => v
               | None => VNone
               end)
    then "HOST"
    else "A"
  else if dmem config "alias" && dmem config "canonical" then "CNAME"
  else if dmem config "network" then "NETWORK"
  else "UNKNOWN".

(** One element of the list [list_backstage_resources] returns. *)
Record resource : Type := {
  r_backstage_id : value;
  r_entity_name : value;
  r_resource_name : string;
  r_source_file : string;
  r_owner : value;
  r_created_at : value;
  r_record_type : string
}.

Definition describe (backstage_id : value) (info : resource_info)
  : resource :=
  {| r_backstage_id := backstage_id;
     r_entity_name := entity_name info;
     r_resource_name := resource_name info;
     r_source_file := source_file info;
     r_owner := owner info;
     r_created_at := created_at info;
     r_record_type := get_record_type (config info) |}.

(** [s in container] for a string [s]. *)
Definition py_in (s : string) (container : value) : res bool :=
  match container with
  | VStr hay => Ok (str_contains s hay)
  | VList l => Ok (existsb (fun x => py_eq x (VStr s)) l)
  | VDict d => Ok (dmem d s)
  | _ => Exn
  end.

(** [sorted(l, key=key)]: a stable sort that only asks [<]. *)
Fixpoint insert_by {A : Type} (key : A -> value) (x : A) (l : list A)
  : res (list A) :=
  match l with
  | [] => Ok [x]
  | y :: l' =>
      before <- py_lt (key y) (key x) ;;
      if before then (r <- insert_by key x l' ;; Ok (y :: r))
      else Ok (x :: y :: l')
  end.

Fixpoint py_sorted {A : Type} (key : A -> value) (l : list A)
  : res (list A) :=
  match l with
  | [] => Ok []
  | x :: l' => s <- py_sorted key l' ;; insert_by key x s
  end.

(** [lambda x: x['created_at'] or '']. *)
Definition sort_key (x : resource) : value :=
  if truthy (r_created_at x) then r_created_at x else VStr "".

(** Body of the loop of [list_backstage_resources]; [entity_filter] is
    [None] or a string, and an empty string is falsy too. *)
Definition list_step (entity_filter : option string)
    (resources : list resource) (item : value * resource_info)
  : res (list resource) :=
  let (backstage_id, info) := item in
  skip <- match entity_filter with
          | None => Ok false
          | Some f =>
              if (f =? "")%string then Ok false
              else (found <- py_in f (entity_name info) ;; Ok (negb found))
          end ;;
  if skip then Ok resources
  else Ok (resources ++ [describe backstage_id info]).

Definition list_backstage_resources (reg : registry)
    (entity_filter : option string) : res (list resource) :=
  resources <- for_each (list_step entity_filter) reg [] ;;
  py_sorted sort_key resources.

(** [find_resources_by_entity]. *)
Definition find_resources_by_entity (reg : registry) (name : string)
  : res (list resource) :=
  resources <- list_backstage_resources reg None ;;
  Ok (filter (fun r => py_eq (r_entity_name r) (VStr name)) resources).

(** [_get_terraform_resource_name]. *)
Definition resource_type_map : dict string :=
  [("a-records.yaml", "infoblox_a_record");
   ("cname-records.yaml", "infoblox_cname_record");
   ("host-records.yaml", "infoblox_host_record");
   ("networks.yaml", "infoblox_network");
   ("dns-zones.yaml", "infoblox_zone_auth")].

Definition get_terraform_resource_name (source_file resource_name : string)
  : string :=
  let resource_type :=
    match dget resource_type_map source_file with
    | Some t => t
    | None => "unknown"
    end in
  resource_type ++ "." ++ resource_name.

(** One element of [resources_to_remove]. *)
Record removal : Type := {
  x_backstage_id : string;
  x_resource_name : string;
  x_source_file : string;
  x_terraform_resource : string
}.

Record cleanup_config : Type := {
  resources_to_remove : list removal;
  terraform_commands : list string
}.

(** [generate_cleanup_config]: the identifiers come from the command line
    and are strings. *)
Fixpoint removals (reg : registry) (backstage_ids : list string)
  : list removal :=
  match backstage_ids with
  | [] => []
  | backstage_id :: rest =>
      match rget reg (VStr backstage_id) with
      | Some info =>
          {| x_backstage_id := backstage_id;
             x_resource_name := resource_name info;
             x_source_file := source_file info;
             x_terraform_resource :=
               get_terraform_resource_name (source_file info)
                                           (resource_name info) |}
          :: removals reg rest
      | None => removals reg rest
      end
  end.

Definition generate_cleanup_config (reg : registry)
    (backstage_ids : list string) : cleanup_config :=
  {| resources_to_remove := removals reg backstage_ids;
     terraform_commands := [] |}.

(** [remove_backstage_resource], with the registry the manager loaded
    when it was created and the configuration directory as it is now.
    [open] raises on a missing file and [yaml.safe_load] on text that does
    not parse; [del] raises on a document that is not a mapping.  The file
    is rewritten with [yaml.dump] alone, and the registry is not
    refreshed. *)
Definition remove_backstage_resource (reg : registry) (fs : directory)
    (backstage_id : string) : res (bool * directory) :=
  match rget reg (VStr backstage_id) with
  | None => Ok (false, fs)
  | Some resource_info =>
      let source_file := source_file resource_info in
      let resource_name := resource_name resource_info in
      match fs source_file with
      | Absent => Exn
      | Unparsable => Exn
      | Parsed v =>
          let data := if truthy v then v else VDict [] in
          held <- py_in resource_name data ;;
          if held then
            match data with
            | VDict d =>
                Ok (true,
                    write fs source_file
                      (Parsed (VDict (ddel d resource_name))))
            | _ => Exn
            end
          else Ok (false, fs)
      end
  end.

(** [validate_backstage_id_format]:
    [r'^[a-z0-9-]+-(?:dev|staging|prod)-\d{14}$']. *)
Definition entity_char (c : ascii) : bool :=
  Re.in_range "a" "z" c || Re.in_range "0" "9" c || (c =? "-")%char.

Definition pattern : Re.regex :=
  Re.Cat Re.Bol
 (Re.Cat (Re.Plus (Re.Class entity_char))
 (Re.Cat (Re.Chr "-")
 (Re.Cat (Re.Alt (Re.Lit "dev") (Re.Alt (Re.Lit "staging") (Re.Lit "prod")))
 (Re.Cat (Re.Chr "-")
 (Re.Cat (Re.Repeat 14 Re.Digit)
         Re.Eol))))).

(** [unicode_digit] stands for the interpreter's table of decimal digits
    outside ASCII, see [Re.accept]. *)
Definition validate_backstage_id_format
    (unicode_digit : string -> option string) (backstage_id : string)
  : bool :=
  Re.re_match unicode_digit pattern backstage_id.

End Manager.

(** * Vocabulary of the specification *)

(** The [EaTags] of an entry, empty when the entry carries none. *)
Definition tags_of (entry : value) : dict value :=
  match entry with
  | VDict d =>
      match dget d "ea_tags" with
      | Some (VDict t) => t
      | _ => []
      end
  | _ => []
  end.

(** [EaTags.BackstageId], null when absent. *)
Definition backstage_id (entry : value) : value :=
  match dget (tags_of entry) "BackstageId" with
  | Some v => v
  | None => VNone
  end.

(** The entry is automation-owned: it has a non-empty [BackstageId]. *)
Definition has_backstage_id (entry : value) : bool :=
  truthy (backstage_id entry).

(** [EaTags.CreatedAt], the minimal timestamp when absent. *)
Definition created_at (entry : value) : string :=
  match dget (tags_of entry) "CreatedAt" with
  | Some (VStr s) => s
  | _ => "1970-01-01"
  end.

(** A ResourceEntry is a mapping whose [ea_tags], when present, is a
    mapping. *)
Definition well_formed (entry : value) : bool :=
  match entry with
  | VDict d =>
      match dget d "ea_tags" with
      | None => true
      | Some (VDict _) => true
      | Some _ => false
      end
  | _ => false
  end.

(** [CreatedAt], when present, is a string. *)
Definition dated (entry : value) : bool :=
  match dget (tags_of entry) "CreatedAt" with
  | None => true
  | Some (VStr _) => true
  | Some _ => false
  end.

Definition doc_ok (d : dict value) : bool :=
  forallb (fun item => well_formed (snd item)) d.

Definition doc_dated (d : dict value) : bool :=
  forallb (fun item => well_formed (snd item) && dated (snd item)) d.

(** Whether the incoming entry replaces the existing one on a shared key,
    as section 4.4 of the specification words it. *)
Definition replaces (strategy : string) (existing_entry incoming : value)
  : bool :=
  if (strategy =? "backstage-wins")%string then has_backstage_id incoming
  else if (strategy =? "manual-protected")%string then
    negb (negb (has_backstage_id existing_entry) && has_backstage_id incoming)
  else if (strategy =? "timestamp-wins")%string then
    String.leb (created_at existing_entry) (created_at incoming)
  else false.

(** The conflicts section 4.3 of the specification asks for on a key both
    documents hold. *)
Definition expected_conflicts (key : string) (existing_entry incoming : value)
  : list Merger.conflict :=
  let eid := backstage_id existing_entry in
  let nid := backstage_id incoming in
  if truthy eid && truthy nid && negb (py_eq eid nid)
  then [Merger.IdMismatch key eid nid]
  else if negb (truthy eid) && truthy nid
  then [Merger.ManualOverwrite key nid]
  else [].

(** A field is present in an entry. *)
Definition present (config : dict value) (field : string) : Prop :=
  In field (keys config).

(** The [allocate_ip] flag of an entry is set. *)
Definition allocates_ip (config : dict value) : bool :=
  match dget config "allocate_ip" with
  | Some v => truthy v
  | None => false
  end.

(** The file that backs a record category (section 6 of the
    specification); the registry names a category by this file. *)
Definition category_file (category : string) : string := category ++ ".yaml".

(** The engine resource type of a source category, as section 4.6 of the
    specification tabulates it. *)
Definition engine_resource_type (source : string) : string :=
  if (source =? category_file "a-records")%string then "infoblox_a_record"
  else if (source =? category_file "cname-records")%string
  then "infoblox_cname_record"
  else if (source =? category_file "host-records")%string
  then "infoblox_host_record"
  else if (source =? category_file "networks")%string then "infoblox_network"
  else if (source =? category_file "dns-zones")%string
  then "infoblox_zone_auth"
  else "unknown".

(** The identifier is present in the registry. *)
Definition registered (reg : Manager.registry) (backstage_id : string)
  : bool :=
  match Manager.rget reg (VStr backstage_id) with
  | Some _ => true
  | None => false
  end.

(** [needle] occurs in [hay] as a substring. *)
Definition substring_of (needle hay : string) : Prop :=
  exists before after : string, hay = (before ++ needle ++ after)%string.

(** A RegistryRecord whose entity name is a string and whose timestamp is
    a string or empty. *)
Definition record_ok (info : Manager.resource_info) : bool :=
  match Manager.entity_name info with
  | VStr _ => true
  | _ => false
  end &&
  match Manager.created_at info with
  | VStr _ => true
  | v => negb (truthy v)
  end.

Definition registry_ok (reg : Manager.registry) : bool :=
  forallb (fun item => record_ok (snd item)) reg.

(** * Auxiliary definitions *)

(** The conflicts one incoming item gives rise to. *)
Definition found (existing : dict value) (item : string * value)
  : list Merger.conflict :=
  match dget existing (fst item) with
  | Some existing_entry =>
      expected_conflicts (fst item) existing_entry (snd item)
  | None => []
  end.

(** What one turn of the loop does to [merged]. *)
Definition merge_item (existing : dict value) (strategy : string)
    (merged : dict value) (item : string * value) : dict value :=
  match dget existing (fst item) with
  | Some existing_entry =>
      if replaces strategy existing_entry (snd item)
      then dset merged (fst item) (snd item)
      else merged
  | None => dset merged (fst item) (snd item)
  end.

(** Every sort key of [l] is a string. *)
Definition string_keyed (A : Type) (key : A -> value) (l : list A) : Prop :=
  forall x, In x l -> exists s, key x = VStr s.

(** What one registry item adds to a filtered and to an unfiltered
    listing. *)
Definition kept (entity_filter : string) (item : value * Manager.resource_info)
  : list Manager.resource :=
  match Manager.entity_name (snd item) with
  | VStr e =>
      if str_contains entity_filter e
      then [Manager.describe (fst item) (snd item)]
      else []
  | _ => []
  end.

Definition described (item : value * Manager.resource_info)
  : list Manager.resource :=
  [Manager.describe (fst item) (snd item)].

(** What [merge_all_files] owes to one file name: the entry of [results]
    and the target file afterwards. *)
Definition settled (reads_as : Merger.saved -> file)
    (source_dir : directory) (strategy : string)
    (results : dict (option bool)) (before after : directory)
    (name : string) : Prop :=
  if file_exists (source_dir name)
  then exists merged,
         Merger.merge_file reads_as name (source_dir name) (before name)
           strategy
         = Ok merged /\
         dget results name = Some (Some (Merger.returned merged)) /\
         after name = Merger.target_after merged
  else dget results name = Some None /\ after name = before name.

(** ** The registry, read off the directory *)

(** A tag of an entry, null when absent. *)
Definition tag_value (entry : value) (name : string) : value :=
  match dget (tags_of entry) name with
  | Some v => v
  | None => VNone
  end.

(** The entry is tagged as created by Backstage and carries a non-empty
    identifier. *)
Definition owned (entry : value) : bool :=
  py_eq (tag_value entry "CreatedBy") (VStr "backstage") &&
  truthy (tag_value entry "BackstageId").

(** The registry record of a document item, if it is a mapping that is
    [owned]. *)
Definition record_of (source_file : string) (item : string * value)
  : list (value * Manager.resource_info) :=
  match snd item with
  | VDict cfg =>
      if owned (snd item)
      then [(tag_value (snd item) "BackstageId",
             {| Manager.resource_name := fst item;
                Manager.entity_name := tag_value (snd item) "BackstageEntity";
                Manager.source_file := source_file;
                Manager.config := cfg;
                Manager.created_at := tag_value (snd item) "CreatedAt";
                Manager.owner := tag_value (snd item) "Owner" |})]
      else []
  | _ => []
  end.

(** The mapping a configuration file holds, empty for a missing or empty
    file. *)
Definition document_of (f : file) : dict value :=
  match f with
  | Parsed (VDict d) => d
  | _ => []
  end.

(** Every record the directory gives rise to, in the order the files are
    read and the documents are walked. *)
Definition candidates_in (fs : directory) (name : string)
  : list (value * Manager.resource_info) :=
  flat_map (record_of name) (document_of (fs name)).

Definition candidates (fs : directory)
  : list (value * Manager.resource_info) :=
  flat_map (candidates_in fs) Manager.config_files.

(** One insertion of a candidate into the registry. *)
Definition register (reg : Manager.registry)
    (c : value * Manager.resource_info) : Manager.registry :=
  Manager.rset reg (fst c) (snd c).

(** The record of the last candidate that carries the identifier. *)
Definition last_with_id (backstage_id : string)
    (l : list (value * Manager.resource_info))
  : option Manager.resource_info :=
  fold_left (fun acc c =>
               if py_eq (fst c) (VStr backstage_id) then Some (snd c) else acc)
            l None.

(** An entry the loader can take: anything that is not a mapping (it is
    skipped), or a mapping whose [ea_tags], when present, is a mapping and
    whose identifier, when it is [owned], can be a dictionary key. *)
Definition loadable_entry (entry : value) : bool :=
  match entry with
  | VDict _ =>
      well_formed entry &&
      (negb (owned entry) || Manager.hashable (tag_value entry "BackstageId"))
  | _ => true
  end.

(** A file the loader can take: missing, empty, or a mapping of loadable
    entries. *)
Definition loadable_file (f : file) : bool :=
  match f with
  | Absent => true
  | Unparsable => false
  | Parsed v =>
      if truthy v
      then match v with
           | VDict d => forallb (fun item => loadable_entry (snd item)) d
           | _ => false
           end
      else true
  end.

Definition loadable (fs : directory) : bool :=
  forallb (fun name => loadable_file (fs name)) Manager.config_files.

(** The timestamp a listing sorts by, as a string. *)
Definition stamp (r : Manager.resource) : string :=
  match Manager.sort_key r with
  | VStr s => s
  | _ => ""
  end.

Definition stamp_le (a b : Manager.resource) : Prop :=
  String.leb (stamp a) (stamp b) = true.

(** Every record's timestamp is a string or empty, so that the records
    can be sorted. *)
Definition stamps_ok (reg : Manager.registry) : bool :=
  forallb (fun item =>
             match Manager.created_at (snd item) with
             | VStr _ => true
             | v => negb (truthy v)
             end) reg.

(** No string identifier is a key of the registry twice. *)
Fixpoint string_ids_once (reg : Manager.registry) : Prop :=
  match reg with
  | [] => True
  | (k, _) :: reg' =>
      (forall i, k = VStr i -> Manager.rget reg' (VStr i) = None) /\
      string_ids_once reg'
  end.

(** ** The identifier grammar *)

Fixpoint all_chars (p : ascii -> bool) (s : string) : bool :=
  match s with
  | EmptyString => true
  | String c s' => p c && all_chars p s'
  end.

Fixpoint char_in (alphabet : string) (c : ascii) : bool :=
  match alphabet with
  | EmptyString => false
  | String a alphabet' => (a =? c)%char || char_in alphabet' c
  end.

(** The grammar of section 4.5 of the specification, read as it is worded:
    a non-empty entity of lowercase letters, digits and hyphens, a hyphen,
    one of the three environments, a hyphen, fourteen decimal digits, and
    nothing else. *)
Definition id_grammar (s : string) : Prop :=
  exists entity env stamp : string,
    s = (entity ++ "-" ++ env ++ "-" ++ stamp)%string /\
    entity <> ""%string /\
    all_chars (char_in "abcdefghijklmnopqrstuvwxyz0123456789-") entity
    = true /\
    (env = "dev" \/ env = "staging" \/ env = "prod")%string /\
    String.length stamp = 14 /\
    all_chars (char_in "0123456789") stamp = true.

(** [r+] and [r{n}] over a character class, as loops of their own. *)
Fixpoint more_of (p : ascii -> bool) (k : nat -> string -> bool)
    (fuel pos : nat) (rest : string) {struct fuel} : bool :=
  match rest with
  | String c rest' =>
      p c && (match fuel with
              | S fuel' => more_of p k fuel' (S pos) rest'
              | O => false
              end || k (S pos) rest')
  | EmptyString => false
  end.

Fixpoint times_of (p : ascii -> bool) (k : nat -> string -> bool)
    (n pos : nat) (rest : string) {struct n} : bool :=
  match n with
  | O => k pos rest
  | S n' =>
      match rest with
      | String c rest' => p c && times_of p k n' (S pos) rest'
      | EmptyString => false
      end
  end.

(** A text of ASCII characters only. *)
Definition is_ascii_text (s : string) : bool := all_chars Re.is_ascii s.

(** The pattern as it reads on ASCII text, where [\d] is [[0-9]]. *)
Fixpoint ascii_only (r : Re.regex) : Re.regex :=
  match r with
  | Re.Digit => Re.Class Re.ascii_digit
  | Re.Cat r1 r2 => Re.Cat (ascii_only r1) (ascii_only r2)
  | Re.Alt r1 r2 => Re.Alt (ascii_only r1) (ascii_only r2)
  | Re.Plus r1 => Re.Plus (ascii_only r1)
  | Re.Repeat n r1 => Re.Repeat n (ascii_only r1)
  | _ => r
  end.

Definition ascii_pattern : Re.regex :=
  Re.Cat Re.Bol
 (Re.Cat (Re.Plus (Re.Class Manager.entity_char))
 (Re.Cat (Re.Chr "-")
 (Re.Cat (Re.Alt (Re.Lit "dev") (Re.Alt (Re.Lit "staging") (Re.Lit "prod")))
 (Re.Cat (Re.Chr "-")
 (Re.Cat (Re.Repeat 14 (Re.Class Re.ascii_digit))
         Re.Eol))))).

(** The last character of a text. *)
Fixpoint last_char (s : string) : option ascii :=
  match s with
  | EmptyString => None
  | String c EmptyString => Some c
  | String _ s' => last_char s'
  end.

(** * Documents used as examples *)

Module Samples.

Definition entry (fqdn : string) (tags : dict value) : value :=
  VDict [("fqdn", VStr fqdn); ("ea_tags", VDict tags)].

Definition old_backstage : value :=
  entry "old.com" [("BackstageId", VStr "old-123");
                   ("CreatedAt", VStr "2025-09-01")].

Definition manual : value :=
  entry "manual.com" [("Owner", VStr "manual")].

Definition new_backstage : value :=
  entry "new.com" [("BackstageId", VStr "new-456");
                   ("CreatedAt", VStr "2025-09-09")].

Definition added : value :=
  entry "added.com" [("BackstageId", VStr "added-789")].

Definition existing : dict value :=
  [("resource1", old_backstage); ("resource2", manual)].

Definition incoming : dict value :=
  [("resource1", new_backstage); ("resource3", added)].

(** An incoming document that claims a manual resource. *)
Definition claiming : dict value :=
  [("resource2", new_backstage); ("resource3", added)].

(** A saved text that reads back as the mapping that was dumped, as
    texts with plain keys do. *)
Definition reads_back (text : Merger.saved) : file :=
  match Merger.dumped text with
  | Some data => Parsed (VDict data)
  | None => Parsed VNone
  end.

End Samples.

(** A registry used as an example. *)
Module RegistrySamples.

Definition old_app : value :=
  VDict [("fqdn", VStr "old-app.example.com");
         ("ip_addr", VStr "10.1.1.10");
         ("ea_tags",
          VDict [("CreatedBy", VStr "backstage");
                 ("BackstageId", VStr "old-app-test-20250901120000");
                 ("BackstageEntity", VStr "old-app");
                 ("CreatedAt", VStr "2025-09-01T12:00:00Z");
                 ("Owner", VStr "platform-team")])].

Definition legacy : value :=
  VDict [("fqdn", VStr "legacy.example.com");
         ("ip_addr", VStr "10.1.1.5");
         ("ea_tags", VDict [("Owner", VStr "ops")])].

(** A configuration directory with one file. *)
Definition directory (name : string) : file :=
  if (name =? "a-records.yaml")%string
  then Parsed (VDict [("legacy_web_server", legacy);
                      ("old_app_server", old_app)])
  else Absent.

Definition old_app_info : Manager.resource_info :=
  {| Manager.resource_name := "old_app_server";
     Manager.entity_name := VStr "old-app";
     Manager.source_file := "a-records.yaml";
     Manager.config :=
       match old_app with
       | VDict cfg => cfg
       | _ => []
       end;
     Manager.created_at := VStr "2025-09-01T12:00:00Z";
     Manager.owner := VStr "platform-team" |}.

Definition reg : Manager.registry :=
  [(VStr "old-app-test-20250901120000", old_app_info)].

Definition old_app_resource : Manager.resource :=
  Manager.describe (VStr "old-app-test-20250901120000") old_app_info.

(** An automation-owned entry that carries no [BackstageEntity] tag. *)
Definition unnamed : value :=
  VDict [("fqdn", VStr "unnamed.example.com");
         ("ip_addr", VStr "10.1.1.20");
         ("ea_tags",
          VDict [("CreatedBy", VStr "backstage");
                 ("BackstageId", VStr "unnamed-dev-20250909120000")])].

Definition directory_unnamed : string -> file :=
  fun name =>
    if (name =? "a-records.yaml")%string
    then Parsed (VDict [("old_app_server", old_app);
                        ("unnamed_server", unnamed)])
    else Absent.

Definition unnamed_info : Manager.resource_info :=
  {| Manager.resource_name := "unnamed_server";
     Manager.entity_name := VNone;
     Manager.source_file := "a-records.yaml";
     Manager.config :=
       match unnamed with
       | VDict cfg => cfg
       | _ => []
       end;
     Manager.created_at := VNone;
     Manager.owner := VNone |}.

Definition reg_unnamed : Manager.registry :=
  [(VStr "old-app-test-20250901120000", old_app_info);
   (VStr "unnamed-dev-20250909120000", unnamed_info)].

(** A registry of three records, not in the order of their timestamps,
    one of them without timestamp. *)
Definition stamped (key entity : string) (created_at : value)
  : Manager.resource_info :=
  {| Manager.resource_name := key;
     Manager.entity_name := VStr entity;
     Manager.source_file := "a-records.yaml";
     Manager.config := [("fqdn", VStr key); ("ip_addr", VStr "10.1.1.1")];
     Manager.created_at := created_at;
     Manager.owner := VNone |}.

Definition three : Manager.registry :=
  [(VStr "web-app-dev-20250903120000",
    stamped "late" "web-app" (VStr "2025-09-03T12:00:00Z"));
   (VStr "web-app-dev-20250902120000",
    stamped "undated" "web-app" VNone);
   (VStr "api-app-dev-20250901120000",
    stamped "early" "api-app" (VStr "2025-09-01T12:00:00Z"))].

End RegistrySamples.

(** Directories used as examples: Backstage output in [source_dir], an
    environment's configuration in [target_dir]. *)
Module DirectorySamples.

Definition source_dir : directory :=
  fun name =>
    if (name =? "a-records.yaml")%string
    then Parsed (VDict Samples.claiming)
    else if (name =? "cname-records.yaml")%string
    then Parsed (VDict Samples.incoming)
    else Absent.

Definition target_dir : directory :=
  fun name =>
    if (name =? "a-records.yaml")%string
    then Parsed (VDict Samples.existing)
    else if (name =? "networks.yaml")%string
    then Parsed (VDict [("lan", VDict [("network", VStr "10.1.0.0/24")])])
    else Absent.

End DirectorySamples.

(** * Dictionaries and loops *)

Section Dict.

Variable V : Type.
Implicit Types (d : dict V) (k : string) (v : V).

Lemma dget_dset_same d k v : dget (dset d k v) k = Some v.
Proof.
  induction d as [| [k' v'] d IH]; simpl.
  - now rewrite String.eqb_refl.
  - destruct (k' =? k)%string eqn:E; simpl; rewrite E; auto.
Qed.

Lemma dget_dset_other d k k' v : k <> k' -> dget (dset d k v) k' = dget d k'.
Proof.
  intros N. induction d as [| [k0 v0] d IH]; simpl.
  - apply String.eqb_neq in N. now rewrite N.
  - destruct (k0 =? k)%string eqn:E; simpl.
    + apply String.eqb_eq in E. subst k0.
      apply String.eqb_neq in N. now rewrite N.
    + now rewrite IH.
Qed.

Lemma dmem_dset d k k' v :
  dmem (dset d k v) k' = (k =? k')%string || dmem d k'.
Proof.
  unfold dmem. destruct (k =? k')%string eqn:E.
  - apply String.eqb_eq in E. subst k'. now rewrite dget_dset_same.
  - apply String.eqb_neq in E. now rewrite dget_dset_other.
Qed.

Lemma dget_In d k v : dget d k = Some v -> In (k, v) d.
Proof.
  induction d as [| [k' v'] d IH]; simpl; [discriminate |].
  destruct (k' =? k)%string eqn:E.
  - apply String.eqb_eq in E. intros [= ->]. subst. now left.
  - intros H. right. auto.
Qed.

Lemma str_mem_keys d k : str_mem k (keys d) = dmem d k.
Proof.
  unfold dmem. induction d as [| [k' v'] d IH]; simpl; [reflexivity |].
  destruct (k' =? k)%string; simpl; auto.
Qed.

Lemma dmem_In d k : dmem d k = true <-> In k (keys d).
Proof.
  unfold dmem, keys. induction d as [| [k' v'] d IH]; simpl.
  - split; [discriminate | tauto].
  - destruct (k' =? k)%string eqn:E.
    + apply String.eqb_eq in E. tauto.
    + apply String.eqb_neq in E. rewrite IH. tauto.
Qed.

End Dict.

Section Loops.

Variables A S : Type.

(** A loop whose body never raises on the items it meets is a fold. *)
Lemma for_each_fold (body : S -> A -> res S) (f : S -> A -> S) (l : list A) :
  (forall s x, In x l -> body s x = Ok (f s x)) ->
  forall s, for_each body l s = Ok (fold_left f l s).
Proof.
  induction l as [| x l IH]; intros H s; simpl; [reflexivity |].
  rewrite H by now left. simpl. apply IH. intros; apply H; now right.
Qed.

End Loops.

Lemma fold_left_app_flat_map (A B : Type) (g : A -> list B) (l : list A) :
  forall acc, fold_left (fun acc x => acc ++ g x) l acc = acc ++ flat_map g l.
Proof.
  induction l as [| x l IH]; intros acc; simpl.
  - now rewrite app_nil_r.
  - now rewrite IH, app_assoc.
Qed.

(** * The merger: what the loops compute *)

Section MergerFacts.

Import Merger.

Lemma get_tags (entry : value) :
  well_formed entry = true ->
  py_get entry "ea_tags" (VDict []) = Ok (VDict (tags_of entry)).
Proof.
  destruct entry as [| | | | |d]; simpl; try discriminate.
  destruct (dget d "ea_tags") as [[| | | | |t]|]; simpl;
    try discriminate; reflexivity.
Qed.

Lemma get_backstage_id (entry : value) :
  py_get (VDict (tags_of entry)) "BackstageId" VNone
  = Ok (backstage_id entry).
Proof. reflexivity. Qed.

Lemma get_created_at (entry : value) :
  dated entry = true ->
  py_get (VDict (tags_of entry)) "CreatedAt" (VStr "1970-01-01")
  = Ok (VStr (created_at entry)).
Proof.
  unfold dated, created_at. simpl.
  destruct (dget (tags_of entry) "CreatedAt") as [[| | | | |]|];
    try discriminate; reflexivity.
Qed.

Lemma py_ge_strings (a b : string) :
  py_ge (VStr a) (VStr b) = Ok (String.leb b a).
Proof.
  unfold py_ge, String.leb. simpl.
  rewrite (String.compare_antisym a b).
  destruct (String.compare b a); reflexivity.
Qed.

Lemma doc_ok_get (d : dict value) (k : string) (v : value) :
  doc_ok d = true -> dget d k = Some v -> well_formed v = true.
Proof.
  unfold doc_ok. rewrite forallb_forall. intros H G.
  apply (H (k, v)). now apply dget_In.
Qed.

Lemma doc_dated_get (d : dict value) (k : string) (v : value) :
  doc_dated d = true -> dget d k = Some v ->
  well_formed v = true /\ dated v = true.
Proof.
  unfold doc_dated. rewrite forallb_forall. intros H G.
  apply andb_true_iff. apply (H (k, v)). now apply dget_In.
Qed.

Lemma doc_dated_ok (d : dict value) : doc_dated d = true -> doc_ok d = true.
Proof.
  unfold doc_dated, doc_ok. rewrite !forallb_forall. intros H x Hx.
  specialize (H x Hx). now apply andb_true_iff in H.
Qed.

(** ** detect_conflicts *)

Lemma detect_step_found existing conflicts item :
  doc_ok existing = true -> well_formed (snd item) = true ->
  detect_step existing conflicts item = Ok (conflicts ++ found existing item).
Proof.
  intros He Hn. destruct item as [key nv]. unfold detect_step, found. simpl in *.
  destruct (dget existing key) as [ev|] eqn:G.
  - rewrite (get_tags ev) by eauto using doc_ok_get.
    rewrite (get_tags nv) by assumption. cbn [bind].
    rewrite !get_backstage_id. cbn [bind]. unfold expected_conflicts.
    cbv zeta.
    destruct (truthy (backstage_id ev) && truthy (backstage_id nv)
              && negb (py_eq (backstage_id ev) (backstage_id nv)));
      [reflexivity |].
    destruct (negb (truthy (backstage_id ev)) && truthy (backstage_id nv));
      [reflexivity | now rewrite app_nil_r].
  - now rewrite app_nil_r.
Qed.

Lemma detect_conflicts_flat_map existing new :
  doc_ok existing = true -> doc_ok new = true ->
  detect_conflicts existing new = Ok (flat_map (found existing) new).
Proof.
  intros He Hn. unfold detect_conflicts.
  rewrite for_each_fold with (f := fun acc x => acc ++ found existing x).
  - now rewrite fold_left_app_flat_map.
  - intros s x Hx. apply detect_step_found; [assumption |].
    unfold doc_ok in Hn. rewrite forallb_forall in Hn. now apply Hn.
Qed.

Lemma found_key existing item c :
  In c (found existing item) -> conflict_key c = fst item.
Proof.
  unfold found, expected_conflicts.
  destruct (dget existing (fst item)); [| intros []].
  destruct (_ && _ && _); [intros [<-|[]]; reflexivity |].
  destruct (_ && _); [intros [<-|[]]; reflexivity | intros []].
Qed.

Lemma filter_found_same existing item :
  filter (fun c => (conflict_key c =? fst item)%string) (found existing item)
  = found existing item.
Proof.
  apply forallb_filter_id. apply forallb_forall. intros c Hc.
  rewrite (found_key _ _ _ Hc). apply String.eqb_refl.
Qed.

Lemma filter_found_other existing item k :
  fst item <> k ->
  filter (fun c => (conflict_key c =? k)%string) (found existing item) = [].
Proof.
  intros N.
  assert (H : forall c, In c (found existing item) ->
              (conflict_key c =? k)%string = false).
  { intros c Hc. rewrite (found_key _ _ _ Hc). now apply String.eqb_neq. }
  induction (found existing item) as [| c l IH]; simpl; [reflexivity |].
  rewrite H by now left. apply IH. intros; apply H; now right.
Qed.

Lemma filter_flat_map_found existing (new : dict value) k :
  dict_wf new = true ->
  filter (fun c => (conflict_key c =? k)%string) (flat_map (found existing) new)
  = match dget new k with
    | Some nv => found existing (k, nv)
    | None => []
    end.
Proof.
  unfold dict_wf. induction new as [| [k' nv] new IH]; simpl; [reflexivity |].
  intros W. apply andb_true_iff in W as [W1 W2].
  rewrite filter_app, (IH W2).
  destruct (k' =? k)%string eqn:E.
  - apply String.eqb_eq in E. subst k'.
    pose proof (filter_found_same existing (k, nv)) as F.
    simpl in F. rewrite F.
    rewrite str_mem_keys in W1. unfold dmem in W1.
    destruct (dget new k); [discriminate | apply app_nil_r].
  - apply String.eqb_neq in E.
    pose proof (filter_found_other existing (k', nv) E) as F.
    simpl in F. now rewrite F.
Qed.

(** ** resolve_conflicts *)

Lemma resolve_step_new existing strategy merged key nv :
  well_formed nv = true -> dget existing key = None ->
  resolve_step existing strategy merged (key, nv)
  = Ok (dset merged key nv).
Proof.
  intros Hn G. unfold resolve_step. rewrite G.
  rewrite (get_tags nv) by assumption. reflexivity.
Qed.

Lemma resolve_step_shared existing strategy merged key ev nv :
  well_formed ev = true -> well_formed nv = true ->
  strategy = "timestamp-wins" \/ strategy <> "timestamp-wins" ->
  (strategy = "timestamp-wins" -> dated ev = true /\ dated nv = true) ->
  dget existing key = Some ev ->
  resolve_step existing strategy merged (key, nv)
  = Ok (if replaces strategy ev nv then dset merged key nv else merged).
Proof.
  intros He Hn _ Hd G. unfold resolve_step, replaces, has_backstage_id.
  rewrite G, (get_tags ev), (get_tags nv) by assumption. cbn [bind].
  rewrite !get_backstage_id. cbn [bind].
  destruct (strategy =? "backstage-wins")%string.
  { destruct (truthy (backstage_id nv)); reflexivity. }
  destruct (strategy =? "manual-protected")%string.
  { destruct (negb (truthy (backstage_id ev)) && truthy (backstage_id nv));
      reflexivity. }
  destruct (strategy =? "timestamp-wins")%string eqn:E; [| reflexivity].
  apply String.eqb_eq in E. destruct (Hd E) as [De Dn].
  rewrite (get_created_at ev De), (get_created_at nv Dn). cbn [bind].
  rewrite py_ge_strings. cbn [bind].
  destruct (String.leb (created_at ev) (created_at nv)); reflexivity.
Qed.

Lemma resolve_step_merge_item existing strategy merged item :
  strategy <> "timestamp-wins" ->
  doc_ok existing = true -> well_formed (snd item) = true ->
  resolve_step existing strategy merged item
  = Ok (merge_item existing strategy merged item).
Proof.
  intros N He Hn. destruct item as [key nv]. unfold merge_item. cbn [fst snd] in *.
  destruct (dget existing key) as [ev|] eqn:G.
  - apply resolve_step_shared; eauto using doc_ok_get. contradiction.
  - now apply resolve_step_new.
Qed.

Lemma resolve_step_merge_item_dated existing strategy merged item :
  doc_dated existing = true ->
  well_formed (snd item) = true -> dated (snd item) = true ->
  resolve_step existing strategy merged item
  = Ok (merge_item existing strategy merged item).
Proof.
  intros He Hn Dn. destruct item as [key nv]. unfold merge_item. cbn [fst snd] in *.
  destruct (dget existing key) as [ev|] eqn:G.
  - destruct (doc_dated_get _ _ He G) as [We De].
    apply resolve_step_shared; auto.
    destruct (String.string_dec strategy "timestamp-wins"); auto.
  - now apply resolve_step_new.
Qed.

Lemma resolve_conflicts_fold existing new strategy :
  strategy <> "timestamp-wins" ->
  doc_ok existing = true -> doc_ok new = true ->
  resolve_conflicts existing new strategy
  = Ok (fold_left (merge_item existing strategy) new existing).
Proof.
  intros N He Hn. unfold resolve_conflicts. apply for_each_fold.
  intros s x Hx. apply resolve_step_merge_item; auto.
  unfold doc_ok in Hn. rewrite forallb_forall in Hn. now apply Hn.
Qed.

Lemma resolve_conflicts_fold_dated existing new strategy :
  doc_dated existing = true -> doc_dated new = true ->
  resolve_conflicts existing new strategy
  = Ok (fold_left (merge_item existing strategy) new existing).
Proof.
  intros He Hn. unfold resolve_conflicts. apply for_each_fold.
  intros s x Hx. unfold doc_dated in Hn. rewrite forallb_forall in Hn.
  specialize (Hn x Hx). apply andb_true_iff in Hn as [W D].
  now apply resolve_step_merge_item_dated.
Qed.

Lemma merge_item_get_other existing strategy merged item k :
  fst item <> k ->
  dget (merge_item existing strategy merged item) k = dget merged k.
Proof.
  intros N. unfold merge_item.
  destruct (dget existing (fst item)) as [ev|];
    [destruct (replaces strategy ev (snd item)) |];
    auto using dget_dset_other.
Qed.

(** A key the incoming document does not hold keeps its entry. *)
Lemma fold_merge_get_absent existing strategy (new : dict value) k :
  dmem new k = false ->
  forall merged,
    dget (fold_left (merge_item existing strategy) new merged) k
    = dget merged k.
Proof.
  unfold dmem. induction new as [| [k' nv] new IH]; simpl; intros H merged;
    [reflexivity |].
  destruct (k' =? k)%string eqn:E; [discriminate |].
  rewrite (IH H). apply merge_item_get_other. simpl.
  now apply String.eqb_neq.
Qed.

(** A key the incoming document holds is decided at its own turn. *)
Lemma fold_merge_get existing strategy (new : dict value) k nv :
  dict_wf new = true -> dget new k = Some nv ->
  forall merged,
    dget (fold_left (merge_item existing strategy) new merged) k
    = dget (merge_item existing strategy merged (k, nv)) k.
Proof.
  unfold dict_wf.
  induction new as [| [k' v'] new IH]; simpl; intros W G merged;
    [discriminate |].
  apply andb_true_iff in W as [W1 W2].
  destruct (k' =? k)%string eqn:E.
  - apply String.eqb_eq in E. subst k'. injection G as ->.
    apply fold_merge_get_absent.
    rewrite str_mem_keys in W1. now destruct (dmem new k).
  - rewrite (IH W2 G).
    assert (N : k' <> k) by now apply String.eqb_neq.
    unfold merge_item at 1 3. simpl.
    destruct (dget existing k) as [ev|];
      [destruct (replaces strategy ev nv) |];
      rewrite ?dget_dset_same; auto using merge_item_get_other.
Qed.

Lemma dmem_merge_item existing strategy merged item k :
  (dmem existing (fst item) = true -> dmem merged (fst item) = true) ->
  dmem (merge_item existing strategy merged item) k
  = dmem merged k || (fst item =? k)%string.
Proof.
  intros Inv. unfold merge_item.
  assert (Keep : dmem merged (fst item) = true ->
                 dmem merged k = dmem merged k || (fst item =? k)%string).
  { intros M. destruct (fst item =? k)%string eqn:E;
      [| now rewrite orb_false_r].
    apply String.eqb_eq in E. subst k. now rewrite M. }
  destruct (dget existing (fst item)) as [ev|] eqn:G.
  - destruct (replaces strategy ev (snd item)).
    + rewrite dmem_dset. apply orb_comm.
    + apply Keep, Inv. unfold dmem. now rewrite G.
  - rewrite dmem_dset. apply orb_comm.
Qed.

(** No key is lost and every incoming key is there. *)
Lemma fold_merge_mem existing strategy (new : dict value) k :
  forall merged,
    (forall k', dmem existing k' = true -> dmem merged k' = true) ->
    dmem (fold_left (merge_item existing strategy) new merged) k
    = dmem merged k || dmem new k.
Proof.
  induction new as [| [k' nv] new IH]; intros merged Inv.
  - unfold dmem at 3. simpl. now rewrite orb_false_r.
  - assert (C : dmem ((k', nv) :: new) k = (k' =? k)%string || dmem new k).
    { unfold dmem. simpl. now destruct (k' =? k)%string. }
    cbn [fold_left]. rewrite IH, C.
    + rewrite dmem_merge_item by (cbn [fst]; apply Inv).
      cbn [fst]. now rewrite orb_assoc.
    + intros k0 H0. rewrite dmem_merge_item by (cbn [fst]; apply Inv).
      now rewrite (Inv k0 H0).
Qed.

(** On a shared key the merged document holds the incoming entry when it
    replaces the existing one, and the existing entry otherwise. *)
Lemma fold_merge_shared existing strategy (new : dict value) key ev nv :
  dict_wf new = true ->
  dget existing key = Some ev -> dget new key = Some nv ->
  dget (fold_left (merge_item existing strategy) new existing) key
  = Some (if replaces strategy ev nv then nv else ev).
Proof.
  intros W Ge Gn. rewrite fold_merge_get with (nv := nv) by assumption.
  unfold merge_item. cbn [fst snd]. rewrite Ge.
  destruct (replaces strategy ev nv); [apply dget_dset_same | exact Ge].
Qed.

Lemma fold_merge_added existing strategy (new : dict value) key nv :
  dict_wf new = true ->
  dget existing key = None -> dget new key = Some nv ->
  dget (fold_left (merge_item existing strategy) new existing) key = Some nv.
Proof.
  intros W Ge Gn. rewrite fold_merge_get with (nv := nv) by assumption.
  unfold merge_item. cbn [fst snd]. rewrite Ge. apply dget_dset_same.
Qed.

Lemma detect_conflicts_nonempty existing (new : dict value) c cs :
  detect_conflicts existing new = Ok (c :: cs) -> is_nil new = false.
Proof. destruct new; [discriminate | reflexivity]. Qed.

Lemma fold_merge_nonempty existing strategy (new : dict value) :
  is_nil new = false ->
  is_nil (fold_left (merge_item existing strategy) new existing) = false.
Proof.
  destruct new as [| [k nv] new]; [discriminate | intros _].
  assert (M : dmem (fold_left (merge_item existing strategy)
                      ((k, nv) :: new) existing) k = true).
  { rewrite fold_merge_mem by auto. unfold dmem at 2. simpl.
    rewrite String.eqb_refl. apply orb_true_r. }
  destruct (fold_left _ _ _); [discriminate | reflexivity].
Qed.

End MergerFacts.

(** * The repository's unit tests, replayed on the model *)

(** [test_detect_conflicts_no_conflicts]. *)
Example test_detect_conflicts_no_conflicts :
  Merger.detect_conflicts
    [("resource1", Samples.entry "test1.com" [])]
    [("resource2", Samples.entry "test2.com" [("BackstageId", VStr "new-123")])]
  = Ok [].
Proof. reflexivity. Qed.

(** [test_detect_conflicts_manual_vs_backstage]. *)
Example test_detect_conflicts_manual_vs_backstage :
  Merger.detect_conflicts
    [("resource1", Samples.entry "test.com" [("Owner", VStr "manual-user")])]
    [("resource1",
      Samples.entry "test.com" [("BackstageId", VStr "new-app-456");
                                ("CreatedBy", VStr "backstage")])]
  = Ok [Merger.ManualOverwrite "resource1" (VStr "new-app-456")].
Proof. reflexivity. Qed.

(** [test_resolve_conflicts_backstage_wins]: the merged document keeps the
    order of the existing keys and appends the new one. *)
Example test_resolve_conflicts_backstage_wins :
  Merger.resolve_conflicts Samples.existing Samples.incoming "backstage-wins"
  = Ok [("resource1", Samples.new_backstage);
        ("resource2", Samples.manual);
        ("resource3", Samples.added)].
Proof. reflexivity. Qed.

(** An entry whose [ea_tags] is null makes [.get] raise. *)
Example resolve_raises_on_null_tags :
  Merger.resolve_conflicts Samples.existing
    [("resource1", VDict [("fqdn", VStr "x.com"); ("ea_tags", VNone)])]
    "backstage-wins"
  = Exn.
Proof. reflexivity. Qed.

(** [test_get_record_type]. *)
Example test_get_record_type :
  Manager.get_record_type
    [("fqdn", VStr "test.com"); ("ip_addr", VStr "10.1.1.1")] = "A" /\
  Manager.get_record_type
    [("fqdn", VStr "test.com"); ("ip_addr", VStr "10.1.1.1");
     ("allocate_ip", VBool true)] = "HOST" /\
  Manager.get_record_type
    [("alias", VStr "www.test.com"); ("canonical", VStr "test.com")]
  = "CNAME" /\
  Manager.get_record_type [("network", VStr "10.1.0.0/24")] = "NETWORK" /\
  Manager.get_record_type [("some_field", VStr "value")] = "UNKNOWN".
Proof. repeat split; reflexivity. Qed.

(** [test_generate_cleanup_config], with an identifier the registry does
    not hold added to the request. *)
Example test_generate_cleanup_config :
  Manager.generate_cleanup_config RegistrySamples.reg
    ["no-such-dev-20250101000000"; "old-app-test-20250901120000"]
  = {| Manager.resources_to_remove :=
         [{| Manager.x_backstage_id := "old-app-test-20250901120000";
             Manager.x_resource_name := "old_app_server";
             Manager.x_source_file := "a-records.yaml";
             Manager.x_terraform_resource :=
               "infoblox_a_record.old_app_server" |}];
       Manager.terraform_commands := [] |}.
Proof. reflexivity. Qed.

(** * The merger: claims *)

(** C1.  Under [backstage-wins], on a key both documents hold, the merged
    document holds the incoming entry when its [BackstageId] is non-empty
    and the existing entry, unchanged, when it is absent or empty. *)
Theorem resolve_backstage_wins existing new key ev nv :
  doc_ok existing = true -> doc_ok new = true -> dict_wf new = true ->
  dget existing key = Some ev -> dget new key = Some nv ->
  exists merged,
    Merger.resolve_conflicts existing new "backstage-wins" = Ok merged /\
    dget merged key = Some (if has_backstage_id nv then nv else ev).
Proof.
  intros He Hn W Ge Gn. eexists. split.
  - apply resolve_conflicts_fold; [discriminate | assumption ..].
  - now rewrite fold_merge_shared with (ev := ev) (nv := nv).
Qed.

Lemma resolve_backstage_wins_witness :
  exists merged,
    Merger.resolve_conflicts Samples.existing Samples.incoming
      "backstage-wins" = Ok merged /\
    dget merged "resource1" = Some Samples.new_backstage.
Proof.
  apply (resolve_backstage_wins Samples.existing Samples.incoming
           "resource1" (ev := Samples.old_backstage)
           (nv := Samples.new_backstage)); reflexivity.
Defined.

(** C2.  Under [manual-protected], on a key both documents hold, the
    existing entry is kept exactly when it has no [BackstageId] and the
    incoming entry has a non-empty one; in every other combination the
    merged document holds the incoming entry. *)
Theorem resolve_manual_protected existing new key ev nv :
  doc_ok existing = true -> doc_ok new = true -> dict_wf new = true ->
  dget existing key = Some ev -> dget new key = Some nv ->
  exists merged,
    Merger.resolve_conflicts existing new "manual-protected" = Ok merged /\
    dget merged key
    = Some (if negb (has_backstage_id ev) && has_backstage_id nv
            then ev else nv).
Proof.
  intros He Hn W Ge Gn. eexists. split.
  - apply resolve_conflicts_fold; [discriminate | assumption ..].
  - rewrite fold_merge_shared with (ev := ev) (nv := nv) by assumption.
    unfold replaces. simpl.
    now destruct (negb (has_backstage_id ev) && has_backstage_id nv).
Qed.

Lemma resolve_manual_protected_witness :
  exists merged,
    Merger.resolve_conflicts Samples.existing Samples.claiming
      "manual-protected" = Ok merged /\
    dget merged "resource2" = Some Samples.manual.
Proof.
  apply (resolve_manual_protected Samples.existing Samples.claiming
           "resource2" (ev := Samples.manual)
           (nv := Samples.new_backstage)); reflexivity.
Defined.

(** C3.  Under [timestamp-wins], on a key both documents hold, the merged
    document holds the incoming entry if and only if the incoming
    [CreatedAt] is lexicographically greater than or equal to the existing
    one, an absent [CreatedAt] counting as "1970-01-01"; otherwise it holds
    the existing entry. *)
Theorem resolve_timestamp_wins existing new key ev nv :
  doc_dated existing = true -> doc_dated new = true -> dict_wf new = true ->
  dget existing key = Some ev -> dget new key = Some nv ->
  exists merged,
    Merger.resolve_conflicts existing new "timestamp-wins" = Ok merged /\
    dget merged key
    = Some (if String.leb (created_at ev) (created_at nv) then nv else ev).
Proof.
  intros He Hn W Ge Gn. eexists. split.
  - now apply resolve_conflicts_fold_dated.
  - now rewrite fold_merge_shared with (ev := ev) (nv := nv).
Qed.

Lemma resolve_timestamp_wins_witness :
  exists merged,
    Merger.resolve_conflicts Samples.existing Samples.claiming
      "timestamp-wins" = Ok merged /\
    dget merged "resource2" = Some Samples.new_backstage.
Proof.
  apply (resolve_timestamp_wins Samples.existing Samples.claiming
           "resource2" (ev := Samples.manual)
           (nv := Samples.new_backstage)); reflexivity.
Defined.

(** C4.  [detect_conflicts] reports, for a key both documents hold, one
    identifier-mismatch conflict when both [BackstageId]s are non-empty and
    differ, one manual-overwrite-attempt conflict when the existing one is
    empty and the incoming one is not, and nothing otherwise; it reports
    nothing for a key that one of the documents lacks. *)
Theorem detect_conflicts_per_key existing new key :
  doc_ok existing = true -> doc_ok new = true -> dict_wf new = true ->
  exists conflicts,
    Merger.detect_conflicts existing new = Ok conflicts /\
    filter (fun c => (Merger.conflict_key c =? key)%string) conflicts
    = match dget existing key, dget new key with
      | Some ev, Some nv => expected_conflicts key ev nv
      | _, _ => []
      end.
Proof.
  intros He Hn W. eexists. split.
  - now apply detect_conflicts_flat_map.
  - rewrite filter_flat_map_found by assumption. unfold found. cbn [fst snd].
    destruct (dget new key), (dget existing key); reflexivity.
Qed.

Lemma detect_conflicts_per_key_witness :
  exists conflicts,
    Merger.detect_conflicts Samples.existing Samples.incoming
    = Ok conflicts /\
    filter (fun c => (Merger.conflict_key c =? "resource1")%string) conflicts
    = [Merger.IdMismatch "resource1" (VStr "old-123") (VStr "new-456")].
Proof.
  apply (detect_conflicts_per_key Samples.existing Samples.incoming
           "resource1"); reflexivity.
Defined.

(** C5.  When [detect_conflicts] reports a conflict, [merge_file] under
    [fail-on-conflict] returns [False] after the detection alone: it calls
    neither [resolve_conflicts] nor the save, and the target file is as it
    was.  Under any other strategy the same conflicts do not stop it: it
    resolves, saves the merged document with the incoming keys as recent
    additions, and returns [True]. *)
Theorem merge_file_fail_on_conflict (reads_as : Merger.saved -> file)
    file_name backstage_file target_file existing new c cs :
  Merger.load_yaml_safely backstage_file = VDict new ->
  Merger.load_yaml_safely target_file = VDict existing ->
  Merger.detect_conflicts existing new = Ok (c :: cs) ->
  Merger.merge_file reads_as file_name backstage_file target_file
    "fail-on-conflict"
  = Ok {| Merger.returned := false;
          Merger.target_after := target_file;
          Merger.calls := [Merger.CallDetect] |}
  /\
  forall strategy,
    strategy <> "fail-on-conflict" ->
    doc_dated existing = true -> doc_dated new = true ->
    exists merged,
      Merger.resolve_conflicts existing new strategy = Ok merged /\
      Merger.merge_file reads_as file_name backstage_file target_file
        strategy
      = Ok {| Merger.returned := true;
              Merger.target_after :=
                reads_as
                  {| Merger.header_record_type :=
                       Merger.record_type_for file_name;
                     Merger.recent_additions := Some (keys new);
                     Merger.dumped := Some merged |};
              Merger.calls := [Merger.CallDetect; Merger.CallResolve;
                               Merger.CallSave] |}.
Proof.
  intros Lb Lt D.
  pose proof (detect_conflicts_nonempty _ _ D) as NE.
  assert (T : truthy (VDict new) = true) by (simpl; now rewrite NE).
  split.
  - unfold Merger.merge_file. rewrite Lb, Lt, T. simpl. now rewrite D.
  - intros strategy N He Hn.
    exists (fold_left (merge_item existing strategy) new existing).
    pose proof (@resolve_conflicts_fold_dated existing new strategy He Hn) as R.
    split; [exact R |].
    unfold Merger.merge_file. rewrite Lb, Lt, T. cbn [negb as_dict bind].
    rewrite D. cbn [bind is_nil negb andb].
    apply String.eqb_neq in N. rewrite N, R. cbn [bind]. cbv zeta.
    unfold Merger.save_yaml_with_header.
    rewrite fold_merge_nonempty by exact NE.
    assert (K : is_nil (keys new) = false) by now destruct new.
    now rewrite K.
Qed.

Lemma merge_file_fail_on_conflict_witness :
  Merger.merge_file Samples.reads_back "a-records.yaml"
    (Parsed (VDict Samples.claiming))
    (Parsed (VDict Samples.existing)) "fail-on-conflict"
  = Ok {| Merger.returned := false;
          Merger.target_after := Parsed (VDict Samples.existing);
          Merger.calls := [Merger.CallDetect] |}
  /\
  exists merged,
    Merger.resolve_conflicts Samples.existing Samples.claiming
      "backstage-wins" = Ok merged /\
    Merger.merge_file Samples.reads_back "a-records.yaml"
      (Parsed (VDict Samples.claiming))
      (Parsed (VDict Samples.existing)) "backstage-wins"
    = Ok {| Merger.returned := true;
            Merger.target_after :=
              Samples.reads_back
                {| Merger.header_record_type := "A";
                   Merger.recent_additions :=
                     Some ["resource2"; "resource3"];
                   Merger.dumped := Some merged |};
            Merger.calls := [Merger.CallDetect; Merger.CallResolve;
                             Merger.CallSave] |}.
Proof.
  destruct (@merge_file_fail_on_conflict Samples.reads_back "a-records.yaml"
              (Parsed (VDict Samples.claiming))
              (Parsed (VDict Samples.existing))
              Samples.existing Samples.claiming
              (Merger.ManualOverwrite "resource2" (VStr "new-456"))
              [] eq_refl eq_refl eq_refl) as [failed others].
  split; [exact failed |].
  apply (others "backstage-wins"); [discriminate | reflexivity | reflexivity].
Defined.

(** C10.  Whatever the strategy, the keys of the merged document are the
    keys of the existing document together with the keys of the incoming
    one: no existing key is removed, and a key only the incoming document
    holds is inserted with the incoming entry. *)
Theorem resolve_key_set existing new strategy :
  doc_dated existing = true -> doc_dated new = true -> dict_wf new = true ->
  exists merged,
    Merger.resolve_conflicts existing new strategy = Ok merged /\
    (forall k, In k (keys merged) <-> In k (keys existing) \/ In k (keys new))
    /\
    (forall k nv, dget existing k = None -> dget new k = Some nv ->
                  dget merged k = Some nv).
Proof.
  intros He Hn W. eexists. split; [| split].
  - now apply resolve_conflicts_fold_dated.
  - intros k. rewrite <- !dmem_In, fold_merge_mem by auto.
    apply orb_true_iff.
  - intros k nv Ge Gn. now apply fold_merge_added.
Qed.

Lemma resolve_key_set_witness :
  exists merged,
    Merger.resolve_conflicts Samples.existing Samples.incoming
      "manual-protected" = Ok merged /\
    (forall k, In k (keys merged) <->
               In k (keys Samples.existing) \/ In k (keys Samples.incoming))
    /\
    (forall k nv, dget Samples.existing k = None ->
                  dget Samples.incoming k = Some nv ->
                  dget merged k = Some nv).
Proof.
  apply (resolve_key_set Samples.existing Samples.incoming
           "manual-protected"); reflexivity.
Defined.

(** * The resource manager: claims *)

(** C6.  [_get_record_type] goes by field presence, in this order: with
    [ip_addr] and [fqdn] present it answers HOST when [allocate_ip] is
    truthy and A otherwise, whatever else is present; failing that, with
    [alias] and [canonical] present it answers CNAME; failing that, with
    [network] present it answers NETWORK; failing that, UNKNOWN. *)
Theorem get_record_type_precedence (config : dict value) :
  let addressed := present config "ip_addr" /\ present config "fqdn" in
  let aliased := present config "alias" /\ present config "canonical" in
  (addressed ->
   Manager.get_record_type config
   = if allocates_ip config then "HOST" else "A") /\
  (~ addressed -> aliased -> Manager.get_record_type config = "CNAME") /\
  (~ addressed -> ~ aliased -> present config "network" ->
   Manager.get_record_type config = "NETWORK") /\
  (~ addressed -> ~ aliased -> ~ present config "network" ->
   Manager.get_record_type config = "UNKNOWN").
Proof.
  unfold present, Manager.get_record_type, allocates_ip.
  assert (P : forall f, In f (keys config) <-> dmem config f = true)
    by (intros f; symmetry; apply dmem_In).
  cbv zeta. rewrite !P.
  destruct (dmem config "ip_addr"), (dmem config "fqdn"),
    (dmem config "alias"), (dmem config "canonical"),
    (dmem config "network"); cbn [andb];
    repeat split; intros; try reflexivity;
    try (destruct (dget config "allocate_ip"); reflexivity);
    try (exfalso; intuition congruence).
Qed.

Lemma get_record_type_precedence_witness :
  Manager.get_record_type
    [("alias", VStr "www.test.com"); ("canonical", VStr "test.com");
     ("network", VStr "10.1.0.0/24");
     ("fqdn", VStr "test.com"); ("ip_addr", VStr "10.1.1.1")]
  = "A".
Proof.
  apply (get_record_type_precedence
           [("alias", VStr "www.test.com"); ("canonical", VStr "test.com");
            ("network", VStr "10.1.0.0/24");
            ("fqdn", VStr "test.com"); ("ip_addr", VStr "10.1.1.1")]).
  unfold present. simpl. tauto.
Defined.

Lemma terraform_resource_name_table (source_file resource_name : string) :
  Manager.get_terraform_resource_name source_file resource_name
  = (engine_resource_type source_file ++ "." ++ resource_name)%string.
Proof.
  unfold Manager.get_terraform_resource_name, engine_resource_type,
    Manager.resource_type_map, category_file.
  cbn [dget String.append].
  rewrite !(String.eqb_sym source_file).
  repeat (match goal with
          | |- context [(?a =? source_file)%string] =>
              destruct (a =? source_file)%string; [reflexivity |]
          end).
  reflexivity.
Qed.

(** C9.  The cleanup plan holds one item for each requested identifier the
    registry holds, in the order of the request, and none for the others,
    so it may be shorter than the request; each item names the record's
    resource key and source, and its address is the engine resource type of
    the record's source category, a dot, and the resource key.  The engine
    resource types are those of the fixed table, and "unknown" for any
    other source. *)
Theorem cleanup_plan (reg : Manager.registry) (ids : list string) :
  let plan :=
    Manager.resources_to_remove (Manager.generate_cleanup_config reg ids) in
  map Manager.x_backstage_id plan = filter (registered reg) ids /\
  (forall item, In item plan ->
     exists info,
       Manager.rget reg (VStr (Manager.x_backstage_id item)) = Some info /\
       Manager.x_resource_name item = Manager.resource_name info /\
       Manager.x_source_file item = Manager.source_file info /\
       Manager.x_terraform_resource item
       = (engine_resource_type (Manager.source_file info) ++ "."
          ++ Manager.resource_name info)%string) /\
  (List.length plan <= List.length ids)%nat /\
  (forall key,
     Manager.get_terraform_resource_name "a-records.yaml" key
     = ("infoblox_a_record." ++ key)%string /\
     Manager.get_terraform_resource_name "cname-records.yaml" key
     = ("infoblox_cname_record." ++ key)%string /\
     Manager.get_terraform_resource_name "host-records.yaml" key
     = ("infoblox_host_record." ++ key)%string /\
     Manager.get_terraform_resource_name "networks.yaml" key
     = ("infoblox_network." ++ key)%string /\
     Manager.get_terraform_resource_name "dns-zones.yaml" key
     = ("infoblox_zone_auth." ++ key)%string) /\
  (forall source key,
     ~ In source Manager.config_files ->
     Manager.get_terraform_resource_name source key
     = ("unknown." ++ key)%string).
Proof.
  cbv zeta. unfold Manager.generate_cleanup_config.
  cbn [Manager.resources_to_remove].
  split; [| split; [| split; [| split]]].
  - induction ids as [| id ids IH]; [reflexivity |].
    cbn [Manager.removals filter]. unfold registered at 1.
    destruct (Manager.rget reg (VStr id)); cbn [map Manager.x_backstage_id];
      now rewrite IH.
  - induction ids as [| id ids IH]; [intros item [] |].
    cbn [Manager.removals].
    destruct (Manager.rget reg (VStr id)) as [info|] eqn:G; [| exact IH].
    intros item [<- | H]; [| now apply IH].
    exists info.
    cbn [Manager.x_backstage_id Manager.x_resource_name
         Manager.x_source_file Manager.x_terraform_resource].
    rewrite terraform_resource_name_table. auto.
  - induction ids as [| id ids IH]; [apply le_n |].
    cbn [Manager.removals].
    destruct (Manager.rget reg (VStr id)); cbn [List.length]; lia.
  - intros key. repeat split; reflexivity.
  - intros source key N. unfold Manager.get_terraform_resource_name,
      Manager.resource_type_map. cbn [dget].
    unfold Manager.config_files in N. cbn [In] in N.
    repeat (match goal with
            | |- context [(?a =? source)%string] =>
                destruct (String.eqb_spec a source); [exfalso; tauto |]
            end).
    reflexivity.
Qed.

(** ** Substrings *)

Lemma prefix_app (a b : string) :
  String.prefix a b = true <-> exists rest, b = (a ++ rest)%string.
Proof.
  revert b. induction a as [| c a IH]; intros b; simpl.
  - split; [intros _; now exists b | now destruct b].
  - destruct b as [| c' b]; simpl.
    + split; [discriminate | intros [rest H]; discriminate].
    + destruct (Ascii.ascii_dec c c') as [-> | N].
      * rewrite IH. split; intros [rest H]; exists rest; congruence.
      * split; [discriminate | intros [rest H]; congruence].
Qed.

Lemma str_contains_substring (needle hay : string) :
  str_contains needle hay = true <-> substring_of needle hay.
Proof.
  unfold substring_of. induction hay as [| c hay IH]; cbn [str_contains].
  - rewrite orb_false_r, prefix_app. split.
    + intros [rest H]. now exists ""%string, rest.
    + intros [[| c b] [a H]]; [now exists a | discriminate].
  - rewrite orb_true_iff, IH, prefix_app. split.
    + intros [[rest H] | [b [a H]]].
      * now exists ""%string, rest.
      * exists (String c b), a. simpl. now rewrite H.
    + intros [[| c' b] [a H]].
      * left. now exists a.
      * right. exists b, a. simpl in H. congruence.
Qed.

(** ** Sorting by string keys *)

Section Sorted.

Variable A : Type.
Variable key : A -> value.

Lemma insert_by_strings (x : A) (l : list A) :
  string_keyed key (x :: l) ->
  exists r, Manager.insert_by key x l = Ok r /\ Permutation (x :: l) r.
Proof.
  induction l as [| y l IH]; intros K; cbn [Manager.insert_by].
  - now exists [x].
  - destruct (K x) as [sx Ex]; [now left |].
    destruct (K y) as [sy Ey]; [right; now left |].
    rewrite Ex, Ey. unfold py_lt. cbn [py_compare bind].
    destruct (String.compare sy sx).
    + exists (x :: y :: l). split; [reflexivity | apply Permutation_refl].
    + destruct IH as [r [E P]].
      { intros z [<- | H]; apply K; [now left | right; now right]. }
      rewrite E. exists (y :: r). split; [reflexivity |].
      apply perm_trans with (y :: x :: l); [apply perm_swap |].
      now apply perm_skip.
    + exists (x :: y :: l). split; [reflexivity | apply Permutation_refl].
Qed.

Lemma py_sorted_strings (l : list A) :
  string_keyed key l ->
  exists r, Manager.py_sorted key l = Ok r /\ Permutation l r.
Proof.
  induction l as [| x l IH]; intros K; cbn [Manager.py_sorted].
  - now exists [].
  - destruct IH as [s [E P]]; [intros z H; apply K; now right |].
    rewrite E. cbn [bind].
    destruct (insert_by_strings (x := x) (l := s)) as [r [E' P']].
    { intros z [<- | H]; apply K; [now left | right].
      apply Permutation_in with s; [now apply Permutation_sym | exact H]. }
    exists r. split; [exact E' |].
    apply perm_trans with (x :: s); [now apply perm_skip | exact P'].
Qed.

End Sorted.

(** ** Listing the registry *)

Lemma str_contains_empty (hay : string) : str_contains "" hay = true.
Proof. now destruct hay. Qed.

Lemma registry_ok_In reg id info :
  registry_ok reg = true -> In (id, info) reg -> record_ok info = true.
Proof.
  unfold registry_ok. rewrite forallb_forall. intros H I. exact (H _ I).
Qed.

Lemma record_ok_entity info :
  record_ok info = true -> exists e, Manager.entity_name info = VStr e.
Proof.
  unfold record_ok. destruct (Manager.entity_name info); try discriminate.
  intros _. now eexists.
Qed.

Lemma record_ok_sort_key id info :
  record_ok info = true ->
  exists s, Manager.sort_key (Manager.describe id info) = VStr s.
Proof.
  unfold record_ok, Manager.sort_key, Manager.describe.
  cbn [Manager.r_created_at]. intros H. apply andb_true_iff in H as [_ H].
  destruct (Manager.created_at info) as [| b | z | s | l | d];
    cbn [truthy] in *.
  - now eexists.
  - apply negb_true_iff in H. rewrite H. now eexists.
  - apply negb_true_iff in H. rewrite H. now eexists.
  - destruct (negb (s =? "")%string); now eexists.
  - apply negb_true_iff in H. rewrite H. now eexists.
  - apply negb_true_iff in H. rewrite H. now eexists.
Qed.

Lemma list_loop_filtered reg entity_filter :
  registry_ok reg = true ->
  for_each (Manager.list_step (Some entity_filter)) reg []
  = Ok (flat_map (kept entity_filter) reg).
Proof.
  intros R.
  rewrite for_each_fold with (f := fun acc x => acc ++ kept entity_filter x).
  - now rewrite fold_left_app_flat_map.
  - intros acc [id info] I. unfold Manager.list_step, kept. cbn [fst snd].
    destruct (@record_ok_entity info (@registry_ok_In reg id info R I)) as [e E]. rewrite E.
    destruct (String.eqb_spec entity_filter "") as [-> | N]; cbn [bind].
    + rewrite str_contains_empty. reflexivity.
    + cbn [Manager.py_in bind].
      destruct (str_contains entity_filter e); cbn [negb];
        [reflexivity | now rewrite app_nil_r].
Qed.

Lemma list_loop_all reg :
  for_each (Manager.list_step None) reg [] = Ok (flat_map described reg).
Proof.
  rewrite for_each_fold with (f := fun acc x => acc ++ described x).
  - now rewrite fold_left_app_flat_map.
  - now intros acc [id info] _.
Qed.

Lemma string_keyed_flat_map reg (g : value * Manager.resource_info
                                       -> list Manager.resource) :
  registry_ok reg = true ->
  (forall item r, In r (g item) ->
                  r = Manager.describe (fst item) (snd item)) ->
  string_keyed Manager.sort_key (flat_map g reg).
Proof.
  intros R G r I. apply in_flat_map in I as [[id info] [I1 I2]].
  rewrite (G _ _ I2). apply record_ok_sort_key.
  exact (@registry_ok_In reg id info R I1).
Qed.

Lemma py_eq_str (v : value) (s : string) :
  py_eq v (VStr s) = true <-> v = VStr s.
Proof.
  destruct v; simpl; try (split; [discriminate | congruence]).
  rewrite String.eqb_eq. split; congruence.
Qed.

(** X21.  On a registry whose records all carry a string entity name,
    and a string or empty timestamp, the two queries filter differently:
    [list_backstage_resources] with an entity filter returns exactly the
    records whose entity name contains the filter as a substring,
    [find_resources_by_entity] exactly those whose entity name equals its
    argument. *)
Theorem list_and_find_filters reg entity_filter name :
  registry_ok reg = true ->
  (exists listed,
     Manager.list_backstage_resources reg (Some entity_filter) = Ok listed /\
     forall r,
       In r listed <->
       exists id info e,
         In (id, info) reg /\ r = Manager.describe id info /\
         Manager.entity_name info = VStr e /\
         substring_of entity_filter e) /\
  (exists found,
     Manager.find_resources_by_entity reg name = Ok found /\
     forall r,
       In r found <->
       exists id info,
         In (id, info) reg /\ r = Manager.describe id info /\
         Manager.entity_name info = VStr name).
Proof.
  intros R. split.
  - unfold Manager.list_backstage_resources.
    rewrite list_loop_filtered by assumption. cbn [bind].
    destruct (py_sorted_strings (key := Manager.sort_key)
                (l := flat_map (kept entity_filter) reg)) as [listed [E P]].
    { apply string_keyed_flat_map; [assumption |].
      intros item r. unfold kept.
      destruct (Manager.entity_name (snd item)); try (intros []).
      destruct (str_contains entity_filter s); [| intros []].
      intros [<- | []]. reflexivity. }
    exists listed. split; [exact E |]. intros r. split.
    + intros I. apply Permutation_in with (l' := flat_map (kept entity_filter) reg)
        in I; [| now apply Permutation_sym].
      apply in_flat_map in I as [[id info] [I1 I2]].
      unfold kept in I2. cbn [fst snd] in I2.
      destruct (Manager.entity_name info) as [| | | e | |] eqn:E1;
        try contradiction.
      destruct (str_contains entity_filter e) eqn:C; [| contradiction].
      destruct I2 as [<- | []].
      exists id, info, e. repeat split; try assumption.
      now apply str_contains_substring.
    + intros [id [info [e [I [-> [E1 S]]]]]].
      apply Permutation_in with (l := flat_map (kept entity_filter) reg);
        [assumption |].
      apply in_flat_map. exists (id, info). split; [assumption |].
      unfold kept. cbn [fst snd]. rewrite E1.
      apply str_contains_substring in S. rewrite S. now left.
  - unfold Manager.find_resources_by_entity, Manager.list_backstage_resources.
    rewrite list_loop_all. cbn [bind].
    destruct (py_sorted_strings (key := Manager.sort_key)
                (l := flat_map described reg)) as [listed [E P]].
    { apply string_keyed_flat_map; [assumption |].
      intros item r [<- | []]. reflexivity. }
    rewrite E. cbn [bind]. eexists. split; [reflexivity |].
    intros r. rewrite filter_In, py_eq_str. split.
    + intros [I N].
      apply Permutation_in with (l' := flat_map described reg) in I;
        [| now apply Permutation_sym].
      apply in_flat_map in I as [[id info] [I1 [<- | []]]].
      exists id, info. auto.
    + intros [id [info [I [-> N]]]]. split; [| exact N].
      apply Permutation_in with (l := flat_map described reg); [assumption |].
      apply in_flat_map. exists (id, info). split; [assumption | now left].
Qed.

(** The example of the specification: the registry built over a directory
    with one automation-owned entry of entity "old-app". *)
Lemma list_and_find_filters_witness :
  Manager.load_configurations RegistrySamples.directory
  = Ok RegistrySamples.reg /\
  Manager.list_backstage_resources RegistrySamples.reg None
  = Ok [RegistrySamples.old_app_resource] /\
  Manager.find_resources_by_entity RegistrySamples.reg "old-app"
  = Ok [RegistrySamples.old_app_resource] /\
  Manager.find_resources_by_entity RegistrySamples.reg "old-ap" = Ok [] /\
  Manager.list_backstage_resources RegistrySamples.reg (Some "old-ap")
  = Ok [RegistrySamples.old_app_resource] /\
  (exists found,
     Manager.find_resources_by_entity RegistrySamples.reg "old-ap"
     = Ok found /\
     forall r,
       In r found <->
       exists id info,
         In (id, info) RegistrySamples.reg /\
         r = Manager.describe id info /\
         Manager.entity_name info = VStr "old-ap").
Proof.
  repeat (split; [reflexivity |]).
  apply (list_and_find_filters RegistrySamples.reg "old-ap" "old-ap").
  reflexivity.
Defined.

(** C7.  The listing is meant to return exactly the records whose entity
    name contains the filter, and [.get('entity_name', '')] to stand in an
    empty name for a record that has none.  It does not: the loader stores
    a null entity name for an automation-owned entry without
    [BackstageEntity], the key is then present and the default never
    applies, and the membership test raises.  The unfiltered listing and
    [find_resources_by_entity] work on the same registry. *)
Theorem list_raises_without_entity :
  loadable RegistrySamples.directory_unnamed = true /\
  Manager.load_configurations RegistrySamples.directory_unnamed
  = Ok RegistrySamples.reg_unnamed /\
  Manager.list_backstage_resources RegistrySamples.reg_unnamed
    (Some "old-ap")
  = Exn /\
  Manager.find_resources_by_entity RegistrySamples.reg_unnamed "old-ap"
  = Ok [] /\
  Manager.find_resources_by_entity RegistrySamples.reg_unnamed "old-app"
  = Ok [RegistrySamples.old_app_resource].
Proof. repeat split; reflexivity. Qed.

(** ** The matcher on the validator's pattern *)

Section Matcher.

Variable ud : string -> option string.
Implicit Types (p : ascii -> bool) (k : nat -> string -> bool).

Lemma str_app_assoc (a b c : string) :
  ((a ++ b) ++ c = a ++ (b ++ c))%string.
Proof. induction a; simpl; congruence. Qed.

Lemma str_app_nil_r (a : string) : (a ++ "" = a)%string.
Proof. induction a; simpl; congruence. Qed.

Lemma str_length_app (a b : string) :
  String.length (a ++ b) = String.length a + String.length b.
Proof. induction a; simpl; congruence. Qed.

Lemma all_chars_ext p q (s : string) :
  (forall c, p c = q c) -> all_chars p s = all_chars q s.
Proof. intros E. induction s; simpl; [reflexivity | now rewrite E, IHs]. Qed.

Lemma accept_plus_class p k pos rest :
  Re.accept ud (Re.Plus (Re.Class p)) pos rest k
  = more_of p k (String.length rest) pos rest.
Proof.
  cbn [Re.accept]. generalize (String.length rest) as fuel. intros fuel.
  revert pos rest. induction fuel as [| fuel IH]; intros pos rest.
  - now destruct rest.
  - destruct rest as [| c rest]; [reflexivity |].
    cbn [more_of]. rewrite <- IH. reflexivity.
Qed.

Lemma accept_repeat_class p k n pos rest :
  Re.accept ud (Re.Repeat n (Re.Class p)) pos rest k = times_of p k n pos rest.
Proof.
  cbn [Re.accept]. revert pos rest. induction n as [| n IH]; intros pos rest.
  - reflexivity.
  - destruct rest as [| c rest]; [reflexivity |].
    cbn [times_of]. rewrite <- IH. reflexivity.
Qed.

Lemma accept_lit k (s : string) pos rest :
  Re.accept ud (Re.Lit s) pos rest k = true <->
  exists rest', rest = (s ++ rest')%string /\
                k (pos + String.length s) rest' = true.
Proof.
  revert pos rest. induction s as [| c s IH]; intros pos rest.
  - cbn [Re.Lit Re.accept String.length]. rewrite Nat.add_0_r. split.
    + intros H. now exists rest.
    + now intros [rest' [-> H]].
  - cbn [Re.Lit Re.accept String.length].
    destruct rest as [| c' rest]; [split; [discriminate | now intros [? [? _]]] |].
    rewrite andb_true_iff, IH, Ascii.eqb_eq. split.
    + intros [-> [rest' [-> H]]]. exists rest'.
      split; [reflexivity |]. now rewrite <- Nat.add_succ_comm.
    + intros [rest' [E H]]. simpl in E. injection E as -> ->.
      split; [reflexivity |]. exists rest'.
      split; [reflexivity |]. now rewrite Nat.add_succ_comm.
Qed.

Lemma times_of_split p k n pos rest :
  times_of p k n pos rest = true <->
  exists taken rest',
    rest = (taken ++ rest')%string /\ String.length taken = n /\
    all_chars p taken = true /\ k (pos + n) rest' = true.
Proof.
  revert pos rest. induction n as [| n IH]; intros pos rest; cbn [times_of].
  - rewrite Nat.add_0_r. split.
    + intros H. now exists ""%string, rest.
    + intros [[| c t] [rest' [-> [L [_ H]]]]]; [exact H | discriminate].
  - destruct rest as [| c rest].
    + split; [discriminate |].
      intros [[| c t] [rest' [E [L _]]]]; discriminate.
    + rewrite andb_true_iff, IH. split.
      * intros [Pc [t [rest' [-> [L [A H]]]]]].
        exists (String c t), rest'. cbn [all_chars String.length].
        rewrite Pc, A, L, <- Nat.add_succ_comm. auto.
      * intros [[| c' t] [rest' [E [L [A H]]]]]; [discriminate |].
        simpl in E. injection E as -> ->. cbn [all_chars] in A.
        apply andb_true_iff in A as [Pc A]. injection L as L.
        split; [exact Pc |]. exists t, rest'.
        rewrite Nat.add_succ_comm. auto.
Qed.

Lemma more_of_split p k fuel pos rest :
  String.length rest <= fuel ->
  (more_of p k fuel pos rest = true <->
   exists taken rest',
     rest = (taken ++ rest')%string /\ taken <> ""%string /\
     all_chars p taken = true /\
     k (pos + String.length taken) rest' = true).
Proof.
  revert pos rest. induction fuel as [| fuel IH]; intros pos rest L.
  - destruct rest as [| c rest]; [| simpl in L; lia]. cbn [more_of]. split.
    + discriminate.
    + intros [[| c t] [rest' [E [N _]]]]; [contradiction | discriminate].
  - destruct rest as [| c rest]; cbn [more_of].
    + split; [discriminate |].
      intros [[| c t] [rest' [E [N _]]]]; [contradiction | discriminate].
    + simpl in L. rewrite andb_true_iff, orb_true_iff, IH by lia. split.
      * intros [Pc [[t [rest' [-> [N [A H]]]]] | H]].
        -- exists (String c t), rest'. cbn [all_chars String.length].
           rewrite Pc, A, <- Nat.add_succ_comm.
           repeat split; auto; discriminate.
        -- exists (String c ""), rest. cbn [all_chars String.length].
           rewrite Pc, Nat.add_1_r. repeat split; auto; discriminate.
      * intros [[| c' t] [rest' [E [N [A H]]]]]; [contradiction |].
        simpl in E. injection E as -> ->. cbn [all_chars] in A.
        apply andb_true_iff in A as [Pc A]. split; [exact Pc |].
        destruct t as [| c2 t].
        -- right. cbn [String.length] in H. now rewrite Nat.add_1_r in H.
        -- left. exists (String c2 t), rest'.
           cbn [String.length] in *. rewrite Nat.add_succ_comm.
           repeat split; auto; discriminate.
Qed.

End Matcher.

Section Accept.

Variable ud : string -> option string.
Implicit Types (p : ascii -> bool) (k : nat -> string -> bool).

Lemma accept_cat (r1 r2 : Re.regex) k pos rest :
  Re.accept ud (Re.Cat r1 r2) pos rest k
  = Re.accept ud r1 pos rest (fun pos' rest' => Re.accept ud r2 pos' rest' k).
Proof. reflexivity. Qed.

Lemma accept_alt (r1 r2 : Re.regex) k pos rest :
  Re.accept ud (Re.Alt r1 r2) pos rest k = true <->
  Re.accept ud r1 pos rest k = true \/ Re.accept ud r2 pos rest k = true.
Proof. cbn [Re.accept]. apply orb_true_iff. Qed.

Lemma accept_bol k rest : Re.accept ud Re.Bol 0 rest k = k 0 rest.
Proof. reflexivity. Qed.

Lemma accept_eol k pos rest :
  Re.accept ud Re.Eol pos rest k = true <->
  Re.at_eol rest = true /\ k pos rest = true.
Proof. cbn [Re.accept]. apply andb_true_iff. Qed.

Lemma accept_chr (c : ascii) k pos rest :
  Re.accept ud (Re.Chr c) pos rest k = true <->
  exists rest', rest = String c rest' /\ k (S pos) rest' = true.
Proof.
  cbn [Re.accept]. destruct rest as [| c' rest].
  - split; [discriminate | now intros [? [? _]]].
  - rewrite andb_true_iff, Ascii.eqb_eq. split.
    + intros [-> H]. now exists rest.
    + intros [rest' [E H]]. injection E as -> ->. auto.
Qed.

(** On ASCII text the pattern and its ASCII reading accept the same. *)
Lemma accept_ascii (r : Re.regex) :
  forall pos rest k k',
    is_ascii_text rest = true ->
    (forall pos' rest', is_ascii_text rest' = true ->
                        k pos' rest' = k' pos' rest') ->
    Re.accept ud r pos rest k = Re.accept ud (ascii_only r) pos rest k'.
Proof.
  induction r as [| | | c | p | | r1 IH1 r2 IH2 | r1 IH1 r2 IH2 | r1 IH1
                 | n r1 IH1];
    intros pos rest k k' A K; cbn [ascii_only Re.accept].
  - now apply K.
  - f_equal. now apply K.
  - f_equal. now apply K.
  - destruct rest as [| c' rest]; [reflexivity |].
    unfold is_ascii_text in *. cbn [all_chars] in A.
    apply andb_true_iff in A as [_ A]. f_equal. now apply K.
  - destruct rest as [| c' rest]; [reflexivity |].
    unfold is_ascii_text in *. cbn [all_chars] in A.
    apply andb_true_iff in A as [_ A]. f_equal. now apply K.
  - unfold Re.after_digit. destruct rest as [| c' rest]; [reflexivity |].
    unfold is_ascii_text in *. cbn [all_chars] in A.
    apply andb_true_iff in A as [A1 A].
    destruct (Re.ascii_digit c'); [now apply K |]. now rewrite A1.
  - apply IH1; [exact A |]. intros pos' rest' A'. now apply IH2.
  - f_equal; [now apply IH1 | now apply IH2].
  - generalize (String.length rest) as fuel. intros fuel.
    revert pos rest A. induction fuel as [| fuel IHf]; intros pos rest A.
    + apply IH1; [exact A |]. intros pos' rest' A'. cbn [orb]. now apply K.
    + apply IH1; [exact A |]. intros pos' rest' A'.
      f_equal; [now apply IHf | now apply K].
  - revert pos rest A. induction n as [| n IHn]; intros pos rest A.
    + now apply K.
    + apply IH1; [exact A |]. intros pos' rest' A'. now apply IHn.
Qed.

End Accept.

(** What the pattern accepts: the three segments, then the end of the
    text as [$] understands it. *)
Lemma validate_shape (ud : string -> option string) (s : string) :
  Re.re_match ud ascii_pattern s = true <->
  exists entity env stamp tail : string,
    s = (entity ++ "-" ++ env ++ "-" ++ stamp ++ tail)%string /\
    entity <> ""%string /\
    all_chars Manager.entity_char entity = true /\
    (env = "dev" \/ env = "staging" \/ env = "prod")%string /\
    String.length stamp = 14 /\
    all_chars Re.ascii_digit stamp = true /\
    Re.at_eol tail = true.
Proof.
  unfold Re.re_match, ascii_pattern.
  rewrite accept_cat, accept_bol, accept_cat, accept_plus_class,
    more_of_split by apply le_n.
  setoid_rewrite accept_cat. setoid_rewrite accept_chr.
  setoid_rewrite accept_cat. do 2 setoid_rewrite accept_alt.
  setoid_rewrite accept_lit.
  setoid_rewrite accept_cat. setoid_rewrite accept_chr.
  setoid_rewrite accept_cat. setoid_rewrite accept_repeat_class.
  setoid_rewrite times_of_split. setoid_rewrite accept_eol.
  split.
  - intros (e & r1 & -> & N & A & r2 & -> & H).
    destruct H as [H | [H | H]];
      destruct H as (r3 & -> & r4 & -> & st & tl & -> & L & D & E & _);
      [exists e, "dev"%string, st, tl
      | exists e, "staging"%string, st, tl
      | exists e, "prod"%string, st, tl];
      repeat split; auto.
  - intros (e & env & st & tl & -> & N & A & En & L & D & E).
    exists e. eexists. split; [reflexivity |]. split; [exact N |].
    split; [exact A |]. eexists. split; [reflexivity |].
    destruct En as [-> | [-> | ->]];
      [left | right; left | right; right];
      (eexists; split; [reflexivity |]);
      (eexists; split; [reflexivity |]);
      exists st, tl; auto.
Qed.

Lemma entity_char_alphabet (c : ascii) :
  Manager.entity_char c = char_in "abcdefghijklmnopqrstuvwxyz0123456789-" c.
Proof. destruct c as [[] [] [] [] [] [] [] []]; reflexivity. Qed.

Lemma digit_alphabet (c : ascii) :
  Re.ascii_digit c = char_in "0123456789" c.
Proof. destruct c as [[] [] [] [] [] [] [] []]; reflexivity. Qed.

Lemma at_eol_cases (tail : string) :
  Re.at_eol tail = true <->
  tail = ""%string \/ tail = String Re.newline "".
Proof.
  unfold Re.at_eol. destruct tail as [| c [| c' t]].
  - tauto.
  - rewrite Ascii.eqb_eq. split.
    + intros ->. now right.
    + intros [H | H]; [discriminate | congruence].
  - split; [discriminate | intros [H | H]; discriminate].
Qed.

(** X19.  On ASCII text the validator accepts the identifiers of the
    grammar and, besides them, the same identifiers followed by one
    newline, and nothing else. *)
Theorem validate_grammar_or_newline (unicode_digit : string -> option string)
    (s : string) :
  is_ascii_text s = true ->
  (Manager.validate_backstage_id_format unicode_digit s = true <->
   id_grammar s \/
   exists s', s = (s' ++ String Re.newline "")%string /\ id_grammar s').
Proof.
  intros Ascii. unfold Manager.validate_backstage_id_format, Re.re_match.
  rewrite (@accept_ascii unicode_digit Manager.pattern 0 s
             (fun _ _ => true) (fun _ _ => true) Ascii)
    by reflexivity.
  change (Re.re_match unicode_digit ascii_pattern s = true <->
          id_grammar s \/
          exists s', s = (s' ++ String Re.newline "")%string /\
                     id_grammar s').
  rewrite validate_shape. unfold id_grammar. split.
  - intros (e & env & st & tl & -> & N & A & En & L & D & E).
    rewrite (all_chars_ext _ _ e entity_char_alphabet) in A.
    rewrite (all_chars_ext _ _ st digit_alphabet) in D.
    apply at_eol_cases in E as [-> | ->].
    + left. exists e, env, st. rewrite str_app_nil_r. auto 10.
    + right. exists (e ++ "-" ++ env ++ "-" ++ st)%string. split.
      * now rewrite !str_app_assoc.
      * exists e, env, st. auto 10.
  - intros [(e & env & st & -> & N & A & En & L & D)
           | (s' & -> & e & env & st & -> & N & A & En & L & D)];
      rewrite <- (all_chars_ext _ _ e entity_char_alphabet) in A;
      rewrite <- (all_chars_ext _ _ st digit_alphabet) in D.
    + exists e, env, st, ""%string. rewrite str_app_nil_r. auto 10.
    + exists e, env, st, (String Re.newline ""). split.
      * now rewrite !str_app_assoc.
      * auto 10.
Qed.

Lemma validate_grammar_or_newline_witness :
  Manager.validate_backstage_id_format (fun _ => None)
    "api-gateway-staging-20250101000000" = true <->
  id_grammar "api-gateway-staging-20250101000000" \/
  exists s',
    "api-gateway-staging-20250101000000"%string
    = (s' ++ String Re.newline "")%string /\ id_grammar s'.
Proof.
  apply (validate_grammar_or_newline (fun _ => None)
           "api-gateway-staging-20250101000000").
  reflexivity.
Defined.

Lemma last_char_app (a b : string) :
  b <> ""%string -> last_char (a ++ b) = last_char b.
Proof.
  intros N. induction a as [| c a IH]; [reflexivity |].
  cbn [String.append last_char]. rewrite IH.
  destruct (a ++ b)%string eqn:E; [| reflexivity].
  destruct a; [simpl in E; congruence | discriminate].
Qed.

Lemma last_char_all (p : ascii -> bool) (s : string) :
  s <> ""%string -> all_chars p s = true ->
  exists c, last_char s = Some c /\ p c = true.
Proof.
  induction s as [| c s IH]; [congruence | intros _ A].
  cbn [all_chars] in A. apply andb_true_iff in A as [Pc A].
  destruct s as [| c' s]; [now exists c |].
  destruct IH as [d [E Pd]]; [discriminate | exact A |].
  exists d. split; [exact E | exact Pd].
Qed.

(** An identifier of the grammar ends with a decimal digit. *)
Lemma id_grammar_ends_with_digit (s : string) :
  id_grammar s ->
  exists c, last_char s = Some c /\ char_in "0123456789" c = true.
Proof.
  intros (e & env & st & -> & _ & _ & _ & L & D).
  assert (N : st <> ""%string) by (intros ->; discriminate).
  destruct (last_char_all _ N D) as [c [E Pc]]. exists c. split; [| exact Pc].
  rewrite !last_char_app; try assumption;
    try (destruct st; [congruence | discriminate]);
    try (destruct env; discriminate).
Qed.

(** * The identifier validator: claims *)

(** The four identifiers the specification lists are judged as it says. *)
Lemma validate_listed_examples (unicode_digit : string -> option string) :
  let is_valid := Manager.validate_backstage_id_format unicode_digit in
  is_valid "my-app-dev-20250909120000" = true /\
  is_valid "my-app-dev-2025090912000" = false /\
  is_valid "MyApp-dev-20250909120000" = false /\
  is_valid "my-app-invalid-20250909120000" = false.
Proof. repeat split; reflexivity. Qed.

(** C8.  The validator is meant to accept exactly the identifiers of the
    grammar.  It does not: a well-formed identifier followed by a newline
    is accepted, because [$] also matches just before a final newline,
    although the text is not an identifier of the grammar. *)
Theorem validate_accepts_trailing_newline
    (unicode_digit : string -> option string) :
  let id := ("my-app-dev-20250909120000" ++ String Re.newline "")%string in
  Manager.validate_backstage_id_format unicode_digit id = true /\
  ~ id_grammar id.
Proof.
  cbv zeta. split; [reflexivity |]. intros G.
  apply id_grammar_ends_with_digit in G as [c [E D]].
  cbn in E. injection E as <-. discriminate D.
Qed.

(** A record with no [BackstageEntity] tag has a null entity name; a
    filtered listing then raises on the membership test.  [registry_ok]
    excludes such registries. *)
Remark list_raises_on_null_entity :
  Manager.list_backstage_resources
    [(VStr "x-dev-20250909120000",
      {| Manager.resource_name := "x";
         Manager.entity_name := VNone;
         Manager.source_file := "a-records.yaml";
         Manager.config := [];
         Manager.created_at := VNone;
         Manager.owner := VNone |})]
    (Some "x")
  = Exn.
Proof. reflexivity. Qed.

(** * Further properties of the merger *)

Section MergerMore.

Lemma dset_same (V : Type) (d : dict V) (k : string) (v : V) :
  dget d k = Some v -> dset d k v = d.
Proof.
  induction d as [| [k' v'] d IH]; simpl; [discriminate |].
  destruct (k' =? k)%string.
  - now intros [= ->].
  - intros G. now rewrite IH.
Qed.

Lemma keys_dset (V : Type) (d : dict V) (k : string) (v : V) :
  keys (dset d k v) = if dmem d k then keys d else keys d ++ [k].
Proof.
  unfold dmem. induction d as [| [k' v'] d IH]; simpl; [reflexivity |].
  destruct (k' =? k)%string; simpl; [reflexivity |].
  rewrite IH. now destruct (dget d k).
Qed.

Lemma dset_fresh (V : Type) (d : dict V) (k : string) (v : V) :
  dmem d k = false -> dset d k v = d ++ [(k, v)].
Proof.
  unfold dmem. induction d as [| [k' v'] d IH]; simpl; [reflexivity |].
  destruct (k' =? k)%string; [discriminate |].
  intros G. now rewrite IH.
Qed.

Lemma In_dget (V : Type) (d : dict V) (k : string) (v : V) :
  dict_wf d = true -> In (k, v) d -> dget d k = Some v.
Proof.
  unfold dict_wf. induction d as [| [k' v'] d IH]; simpl; [intros _ [] |].
  intros W. apply andb_true_iff in W as [W1 W2].
  intros [[= -> ->] | I].
  - now rewrite String.eqb_refl.
  - destruct (String.eqb_spec k' k) as [-> | N]; [| auto].
    rewrite str_mem_keys in W1. apply negb_true_iff in W1.
    assert (M : dmem d k = true)
      by (apply dmem_In; apply in_map_iff; now exists (k, v)).
    congruence.
Qed.

Lemma keys_merge_item existing strategy merged item :
  (dmem existing (fst item) = true -> dmem merged (fst item) = true) ->
  keys (merge_item existing strategy merged item)
  = if dmem merged (fst item) then keys merged
    else keys merged ++ [fst item].
Proof.
  intros Inv. unfold merge_item.
  destruct (dget existing (fst item)) as [ev|] eqn:G;
    [destruct (replaces strategy ev (snd item)) |];
    try apply keys_dset.
  rewrite Inv; [reflexivity |]. unfold dmem. now rewrite G.
Qed.

Lemma keys_fold_merge existing strategy (new : dict value) :
  dict_wf new = true ->
  forall merged,
    (forall k, dmem existing k = true -> dmem merged k = true) ->
    keys (fold_left (merge_item existing strategy) new merged)
    = keys merged ++ filter (fun k => negb (dmem merged k)) (keys new).
Proof.
  unfold dict_wf.
  induction new as [| [k v] new IH]; intros W merged Inv.
  - simpl. now rewrite app_nil_r.
  - cbn [keys map fst uniq] in W. apply andb_true_iff in W as [W1 W2].
    apply negb_true_iff in W1.
    cbn [fold_left]. rewrite (IH W2).
    + rewrite keys_merge_item by (cbn [fst]; apply Inv). cbn [fst].
      assert (F : filter
                    (fun k0 => negb (dmem (merge_item existing strategy
                                             merged (k, v)) k0))
                    (keys new)
                  = filter (fun k0 => negb (dmem merged k0)) (keys new)).
      { apply filter_ext_in. intros k0 I.
        rewrite dmem_merge_item by (cbn [fst]; apply Inv). cbn [fst].
        destruct (String.eqb_spec k k0) as [-> | N];
          [| now rewrite orb_false_r].
        assert (M : str_mem k0 (keys new) = true).
        { clear - I. induction (keys new) as [| a l IHl]; [destruct I |].
          simpl. destruct I as [-> | I];
            [now rewrite String.eqb_refl | rewrite IHl by assumption].
          apply orb_true_r. }
        unfold keys in *. congruence. }
      rewrite F. cbn [keys map fst filter].
      destruct (dmem merged k); cbn [negb]; [reflexivity |].
      now rewrite <- app_assoc.
    + intros k0 H0. rewrite dmem_merge_item by (cbn [fst]; apply Inv).
      now rewrite (Inv k0 H0).
Qed.

Lemma fold_merge_dated existing strategy (new : dict value) :
  doc_dated new = true ->
  forall merged,
    doc_dated merged = true ->
    doc_dated (fold_left (merge_item existing strategy) new merged) = true.
Proof.
  assert (D : forall (d : dict value) k v,
             doc_dated d = true -> well_formed v && dated v = true ->
             doc_dated (dset d k v) = true).
  { unfold doc_dated. induction d as [| [k' v'] d IH]; intros k v Hd Hv.
    - simpl. now rewrite Hv.
    - simpl in Hd. apply andb_true_iff in Hd as [H1 H2]. cbn [dset].
      destruct (k' =? k)%string; cbn [forallb snd].
      + now rewrite Hv, H2.
      + rewrite H1. now apply IH. }
  induction new as [| [k v] new IH]; intros Hn merged Hm; [exact Hm |].
  cbn [doc_dated forallb snd] in Hn. apply andb_true_iff in Hn as [Hv Hn].
  cbn [fold_left]. apply IH; [exact Hn |]. unfold merge_item. cbn [fst snd].
  destruct (dget existing k) as [ev|];
    [destruct (replaces strategy ev v) |]; auto.
Qed.

End MergerMore.

(** X1.  Whatever the strategy, a key the incoming document does not hold
    keeps the entry it had. *)
Theorem resolve_keeps_other_keys existing new strategy key :
  doc_dated existing = true -> doc_dated new = true ->
  dmem new key = false ->
  exists merged,
    Merger.resolve_conflicts existing new strategy = Ok merged /\
    dget merged key = dget existing key.
Proof.
  intros He Hn A. eexists. split.
  - now apply resolve_conflicts_fold_dated.
  - now apply fold_merge_get_absent.
Qed.

Lemma resolve_keeps_other_keys_witness :
  exists merged,
    Merger.resolve_conflicts Samples.existing Samples.incoming
      "timestamp-wins" = Ok merged /\
    dget merged "resource2" = dget Samples.existing "resource2".
Proof.
  apply (resolve_keeps_other_keys Samples.existing Samples.incoming
           "timestamp-wins" "resource2"); reflexivity.
Defined.

(** X2.  The merged document keeps the existing keys in their order and
    appends the keys only the incoming document holds, in the incoming
    order. *)
Theorem resolve_key_order existing new strategy :
  doc_dated existing = true -> doc_dated new = true -> dict_wf new = true ->
  exists merged,
    Merger.resolve_conflicts existing new strategy = Ok merged /\
    keys merged
    = keys existing ++ filter (fun k => negb (dmem existing k)) (keys new).
Proof.
  intros He Hn W. eexists. split.
  - now apply resolve_conflicts_fold_dated.
  - now apply keys_fold_merge.
Qed.

Lemma resolve_key_order_witness :
  exists merged,
    Merger.resolve_conflicts Samples.existing Samples.incoming
      "manual-protected" = Ok merged /\
    keys merged = ["resource1"; "resource2"; "resource3"].
Proof.
  apply (resolve_key_order Samples.existing Samples.incoming
           "manual-protected"); reflexivity.
Defined.

Section MergerAgain.

Lemma fold_left_fixed (A S : Type) (f : S -> A -> S) (l : list A) (s : S) :
  (forall x, In x l -> f s x = s) -> fold_left f l s = s.
Proof.
  induction l as [| x l IH]; intros H; [reflexivity |].
  cbn [fold_left]. rewrite (H x) by now left.
  apply IH. intros y I. apply H. now right.
Qed.

Lemma dmem_of_In (V : Type) (d : dict V) (k : string) (v : V) :
  In (k, v) d -> dmem d k = true.
Proof.
  intros I. apply dmem_In. apply in_map_iff. now exists (k, v).
Qed.

(** What the first merge leaves on a key of the incoming document. *)
Lemma fold_merge_incoming existing strategy (new : dict value) k nv :
  dict_wf new = true -> In (k, nv) new ->
  let merged := fold_left (merge_item existing strategy) new existing in
  dget merged k = Some nv \/
  exists ev, dget existing k = Some ev /\ replaces strategy ev nv = false /\
             dget merged k = Some ev.
Proof.
  intros W I. cbv zeta. pose proof (@In_dget _ _ _ _ W I) as G.
  destruct (dget existing k) as [ev|] eqn:Ge.
  - rewrite fold_merge_shared with (ev := ev) (nv := nv) by assumption.
    destruct (replaces strategy ev nv) eqn:R; [now left |].
    right. now exists ev.
  - left. now apply fold_merge_added.
Qed.

Lemma no_replaces (strategy : string) :
  strategy <> "backstage-wins" -> strategy <> "manual-protected" ->
  strategy <> "timestamp-wins" ->
  forall ev nv, replaces strategy ev nv = false.
Proof.
  intros N1 N2 N3 ev nv. unfold replaces.
  apply String.eqb_neq in N1, N2, N3. now rewrite N1, N2, N3.
Qed.

Lemma fold_merge_inert existing strategy (new : dict value) :
  (forall ev nv, replaces strategy ev nv = false) ->
  forall merged k ev,
    dget existing k = Some ev -> dget merged k = Some ev ->
    dget (fold_left (merge_item existing strategy) new merged) k = Some ev.
Proof.
  intros R. induction new as [| [k0 v] new IH]; intros merged k ev Ge Gm;
    [exact Gm |].
  cbn [fold_left]. apply IH; [exact Ge |].
  unfold merge_item. cbn [fst snd].
  destruct (dget existing k0) as [ev0|] eqn:G0.
  - now rewrite R.
  - rewrite dget_dset_other; [exact Gm |]. intros ->. congruence.
Qed.

Lemma In_found existing (new : dict value) c :
  In c (flat_map (found existing) new) ->
  exists k nv ev,
    In (k, nv) new /\ dget existing k = Some ev /\
    In c (expected_conflicts k ev nv).
Proof.
  intros I. apply in_flat_map in I as [[k nv] [I1 I2]].
  unfold found in I2. cbn [fst snd] in I2.
  destruct (dget existing k) as [ev|] eqn:G; [| destruct I2].
  now exists k, nv, ev.
Qed.

Lemma detect_conflicts_empty_target (new : dict value) :
  Merger.detect_conflicts [] new = Ok [].
Proof.
  unfold Merger.detect_conflicts.
  rewrite for_each_fold with (f := fun acc _ => acc).
  - f_equal. now apply fold_left_fixed.
  - now intros s [k v] _.
Qed.

Lemma fold_dset_fresh (new : dict value) :
  dict_wf new = true ->
  forall acc : dict value,
    (forall k, In k (keys new) -> dmem acc k = false) ->
    fold_left (fun m item => dset m (fst item) (snd item)) new acc
    = acc ++ new.
Proof.
  unfold dict_wf. induction new as [| [k v] new IH]; intros W acc F.
  - simpl. now rewrite app_nil_r.
  - cbn [keys map fst uniq] in W. apply andb_true_iff in W as [W1 W2].
    apply negb_true_iff in W1. cbn [fold_left fst snd].
    rewrite dset_fresh by (apply F; now left).
    rewrite (IH W2).
    + now rewrite <- app_assoc.
    + intros k0 I. unfold dmem.
      assert (N : k <> k0).
      { intros ->. change (str_mem k0 (keys new) = false) in W1.
        rewrite str_mem_keys in W1. apply dmem_In in I. congruence. }
      assert (E : dget (acc ++ [(k, v)]) k0 = dget acc k0).
      { rewrite <- (dset_fresh acc k v) by (apply F; now left).
        now apply dget_dset_other. }
      rewrite E. specialize (F k0 (or_intror I)). unfold dmem in F.
      exact F.
Qed.

Lemma resolve_conflicts_empty_target (new : dict value) strategy :
  doc_ok new = true -> dict_wf new = true ->
  Merger.resolve_conflicts [] new strategy = Ok new.
Proof.
  intros Hn W. unfold Merger.resolve_conflicts.
  rewrite for_each_fold
    with (f := fun m item => dset m (fst item) (snd item)).
  - now rewrite fold_dset_fresh.
  - intros m [k v] I. cbn [fst snd]. apply resolve_step_new; [| reflexivity].
    unfold doc_ok in Hn. rewrite forallb_forall in Hn. exact (Hn _ I).
Qed.

End MergerAgain.

(** X3.  Merging the same incoming document a second time changes
    nothing: the merge is idempotent under every strategy. *)
Theorem resolve_idempotent existing new strategy :
  doc_dated existing = true -> doc_dated new = true -> dict_wf new = true ->
  exists merged,
    Merger.resolve_conflicts existing new strategy = Ok merged /\
    Merger.resolve_conflicts merged new strategy = Ok merged.
Proof.
  intros He Hn W.
  exists (fold_left (merge_item existing strategy) new existing).
  split; [now apply resolve_conflicts_fold_dated |].
  rewrite resolve_conflicts_fold_dated;
    [| now apply fold_merge_dated | assumption].
  f_equal. apply fold_left_fixed. intros [k nv] I.
  unfold merge_item at 1. cbn [fst snd].
  destruct (@fold_merge_incoming existing strategy new k nv W I)
    as [G | [ev [_ [R G]]]]; rewrite G.
  - rewrite (@dset_same _ _ _ _ G). now destruct (replaces strategy nv nv).
  - now rewrite R.
Qed.

Lemma resolve_idempotent_witness :
  exists merged,
    Merger.resolve_conflicts Samples.existing Samples.claiming
      "manual-protected" = Ok merged /\
    Merger.resolve_conflicts merged Samples.claiming "manual-protected"
    = Ok merged.
Proof.
  apply (resolve_idempotent Samples.existing Samples.claiming
           "manual-protected"); reflexivity.
Defined.

(** X4.  Under a strategy [resolve_conflicts] has no branch for, and
    [fail-on-conflict] is one, no existing entry is ever updated: the merge
    only adds the keys that are new. *)
Theorem resolve_unknown_strategy_keeps_existing existing new strategy :
  strategy <> "backstage-wins" -> strategy <> "manual-protected" ->
  strategy <> "timestamp-wins" ->
  doc_ok existing = true -> doc_ok new = true ->
  exists merged,
    Merger.resolve_conflicts existing new strategy = Ok merged /\
    forall k ev, dget existing k = Some ev -> dget merged k = Some ev.
Proof.
  intros N1 N2 N3 He Hn. eexists. split.
  - now apply resolve_conflicts_fold.
  - intros k ev G. apply fold_merge_inert; auto using no_replaces.
Qed.

Lemma resolve_unknown_strategy_keeps_existing_witness :
  exists merged,
    Merger.resolve_conflicts Samples.existing Samples.incoming
      "fail-on-conflict" = Ok merged /\
    forall k ev, dget Samples.existing k = Some ev ->
                 dget merged k = Some ev.
Proof.
  apply (resolve_unknown_strategy_keeps_existing
           Samples.existing Samples.incoming (strategy := "fail-on-conflict"));
    (discriminate || reflexivity).
Defined.

(** X5.  Under [backstage-wins] every key [detect_conflicts] reports, a
    manual resource included, ends up holding the incoming entry: the
    detection does not protect anything. *)
Theorem backstage_wins_overwrites_conflicts existing new :
  doc_ok existing = true -> doc_ok new = true -> dict_wf new = true ->
  exists conflicts merged,
    Merger.detect_conflicts existing new = Ok conflicts /\
    Merger.resolve_conflicts existing new "backstage-wins" = Ok merged /\
    forall c, In c conflicts ->
              dget merged (Merger.conflict_key c)
              = dget new (Merger.conflict_key c).
Proof.
  intros He Hn W. do 2 eexists. split; [| split].
  - now apply detect_conflicts_flat_map.
  - apply resolve_conflicts_fold; [discriminate | assumption ..].
  - intros c I. apply In_found in I as (k & nv & ev & I & G & E).
    pose proof (@In_dget _ _ _ _ W I) as Gn.
    assert (K : Merger.conflict_key c = k /\ has_backstage_id nv = true).
    { unfold expected_conflicts, has_backstage_id in *.
      destruct (truthy (backstage_id ev)), (truthy (backstage_id nv));
        cbn [andb negb] in E;
        try destruct (negb (py_eq (backstage_id ev) (backstage_id nv)));
        cbn [In] in E; try tauto;
        destruct E as [<- | []]; auto. }
    destruct K as [-> T].
    rewrite fold_merge_shared with (ev := ev) (nv := nv) by assumption.
    unfold replaces. cbn [String.eqb Ascii.eqb Bool.eqb]. now rewrite T, Gn.
Qed.

Lemma backstage_wins_overwrites_conflicts_witness :
  exists conflicts merged,
    Merger.detect_conflicts Samples.existing Samples.claiming
    = Ok conflicts /\
    Merger.resolve_conflicts Samples.existing Samples.claiming
      "backstage-wins" = Ok merged /\
    forall c, In c conflicts ->
              dget merged (Merger.conflict_key c)
              = dget Samples.claiming (Merger.conflict_key c).
Proof.
  apply (backstage_wins_overwrites_conflicts
           Samples.existing Samples.claiming); reflexivity.
Defined.

(** X6.  Under [manual-protected] a key reported as a manual-overwrite
    attempt keeps the existing entry, while a key reported for mismatching
    identifiers is overwritten with the incoming entry all the same. *)
Theorem manual_protected_and_conflicts existing new :
  doc_ok existing = true -> doc_ok new = true -> dict_wf new = true ->
  exists conflicts merged,
    Merger.detect_conflicts existing new = Ok conflicts /\
    Merger.resolve_conflicts existing new "manual-protected" = Ok merged /\
    forall c, In c conflicts ->
              dget merged (Merger.conflict_key c)
              = match c with
                | Merger.ManualOverwrite key _ => dget existing key
                | Merger.IdMismatch key _ _ => dget new key
                end.
Proof.
  intros He Hn W. do 2 eexists. split; [| split].
  - now apply detect_conflicts_flat_map.
  - apply resolve_conflicts_fold; [discriminate | assumption ..].
  - intros c I. apply In_found in I as (k & nv & ev & I & G & E).
    pose proof (@In_dget _ _ _ _ W I) as Gn.
    assert (S : dget (fold_left (merge_item existing "manual-protected")
                        new existing) k
                = Some (if replaces "manual-protected" ev nv
                        then nv else ev))
      by now apply fold_merge_shared.
    unfold replaces, has_backstage_id in S.
    cbn [String.eqb Ascii.eqb Bool.eqb] in S.
    unfold expected_conflicts in E.
    destruct (truthy (backstage_id ev)), (truthy (backstage_id nv));
      cbn [andb negb] in E, S;
      try destruct (negb (py_eq (backstage_id ev) (backstage_id nv)));
      cbn [In] in E; try tauto;
      destruct E as [<- | []]; cbn [Merger.conflict_key];
      rewrite S; congruence.
Qed.

Lemma manual_protected_and_conflicts_witness :
  exists conflicts merged,
    Merger.detect_conflicts Samples.existing Samples.incoming
    = Ok conflicts /\
    Merger.resolve_conflicts Samples.existing Samples.incoming
      "manual-protected" = Ok merged /\
    forall c, In c conflicts ->
              dget merged (Merger.conflict_key c)
              = match c with
                | Merger.ManualOverwrite key _ => dget Samples.existing key
                | Merger.IdMismatch key _ _ => dget Samples.incoming key
                end.
Proof.
  apply (manual_protected_and_conflicts Samples.existing Samples.incoming);
    reflexivity.
Defined.

(** X7.  Merging into a target that is missing, unparsable or empty
    reports no conflict, under every strategy, [fail-on-conflict] included:
    [merge_file] returns [True], and what it saves is the incoming document
    as it is, with its keys as recent additions. *)
Theorem merge_file_into_empty_target (reads_as : Merger.saved -> file)
    file_name backstage_file target_file new strategy :
  Merger.load_yaml_safely backstage_file = VDict new ->
  Merger.load_yaml_safely target_file = VDict [] ->
  is_nil new = false -> doc_ok new = true -> dict_wf new = true ->
  Merger.merge_file reads_as file_name backstage_file target_file strategy
  = Ok {| Merger.returned := true;
          Merger.target_after :=
            reads_as
              {| Merger.header_record_type :=
                   Merger.record_type_for file_name;
                 Merger.recent_additions := Some (keys new);
                 Merger.dumped := Some new |};
          Merger.calls := [Merger.CallDetect; Merger.CallResolve;
                           Merger.CallSave] |}.
Proof.
  intros Lb Lt NE Hn W. unfold Merger.merge_file.
  rewrite Lb, Lt. cbn [truthy]. rewrite NE. cbn [negb as_dict bind].
  rewrite detect_conflicts_empty_target. cbn [bind is_nil negb andb].
  rewrite resolve_conflicts_empty_target by assumption. cbn [bind].
  cbv zeta. unfold Merger.save_yaml_with_header. rewrite NE.
  assert (K : is_nil (keys new) = false) by now destruct new.
  now rewrite K.
Qed.

Lemma merge_file_into_empty_target_witness :
  Merger.merge_file Samples.reads_back "cname-records.yaml"
    (Parsed (VDict Samples.incoming)) Absent "fail-on-conflict"
  = Ok {| Merger.returned := true;
          Merger.target_after :=
            Samples.reads_back
              {| Merger.header_record_type := "CNAME";
                 Merger.recent_additions := Some ["resource1"; "resource3"];
                 Merger.dumped := Some Samples.incoming |};
          Merger.calls := [Merger.CallDetect; Merger.CallResolve;
                           Merger.CallSave] |}.
Proof.
  apply (@merge_file_into_empty_target Samples.reads_back
           "cname-records.yaml" (Parsed (VDict Samples.incoming)) Absent
           Samples.incoming "fail-on-conflict"); reflexivity.
Defined.

(** X8.  [merge_file] returns [False] in two situations only: the
    Backstage file is missing, unparsable or empty, or the strategy is
    [fail-on-conflict] and a conflict was detected.  Whenever it returns
    [False] it has neither resolved nor saved, and the target file is as it
    was. *)
Theorem merge_file_failure (reads_as : Merger.saved -> file)
    file_name backstage_file target_file strategy o :
  Merger.merge_file reads_as file_name backstage_file target_file strategy
  = Ok o ->
  (Merger.returned o = false <->
   truthy (Merger.load_yaml_safely backstage_file) = false \/
   (strategy = "fail-on-conflict" /\
    exists existing new c cs,
      Merger.load_yaml_safely backstage_file = VDict new /\
      Merger.load_yaml_safely target_file = VDict existing /\
      Merger.detect_conflicts existing new = Ok (c :: cs))) /\
  (Merger.returned o = false ->
   Merger.target_after o = target_file /\
   ~ In Merger.CallResolve (Merger.calls o) /\
   ~ In Merger.CallSave (Merger.calls o)).
Proof.
  unfold Merger.merge_file.
  destruct (truthy (Merger.load_yaml_safely backstage_file)) eqn:T;
    cbn [negb].
  2: { intros [= <-]. cbn. intuition. }
  destruct (Merger.load_yaml_safely backstage_file) as [| | | | |new];
    try discriminate.
  destruct (Merger.load_yaml_safely target_file) as [| | | | |existing];
    try discriminate.
  cbn [as_dict bind].
  destruct (Merger.detect_conflicts existing new) as [conflicts|] eqn:D;
    [| discriminate].
  cbn [bind].
  destruct (negb (is_nil conflicts) && (strategy =? "fail-on-conflict")%string)
    eqn:F.
  - intros [= <-]. cbn. apply andb_true_iff in F as [F1 F2].
    apply String.eqb_eq in F2. destruct conflicts as [| c cs];
      [discriminate |].
    split; [| intuition congruence]. split; [| reflexivity]. intros _.
    right. split; [exact F2 |]. now exists existing, new, c, cs.
  - destruct (Merger.resolve_conflicts existing new strategy); [| discriminate].
    cbn [bind]. intros [= <-]. cbn. split; [| discriminate].
    split; [discriminate |].
    intros [H | [-> (e' & n' & c & cs & [= <-] & [= <-] & D')]];
      [discriminate |].
    rewrite D' in D. injection D as <-. discriminate F.
Qed.

Lemma merge_file_failure_witness :
  let failed :=
    {| Merger.returned := false;
       Merger.target_after := Parsed (VDict Samples.existing);
       Merger.calls := [Merger.CallDetect] |} in
  Merger.merge_file Samples.reads_back "a-records.yaml"
    (Parsed (VDict Samples.claiming))
    (Parsed (VDict Samples.existing)) "fail-on-conflict" = Ok failed /\
  Merger.target_after failed = Parsed (VDict Samples.existing) /\
  ~ In Merger.CallResolve (Merger.calls failed) /\
  ~ In Merger.CallSave (Merger.calls failed).
Proof.
  cbv zeta. split; [reflexivity |].
  exact (proj2 (@merge_file_failure Samples.reads_back "a-records.yaml"
                  (Parsed (VDict Samples.claiming))
                  (Parsed (VDict Samples.existing)) "fail-on-conflict"
                  _ eq_refl) eq_refl).
Defined.

Section Batch.

Variable reads_as : Merger.saved -> file.
Variable source_dir : directory.
Variable strategy : string.

Lemma merge_all_from (names : list string) :
  uniq names = true ->
  forall results target,
    (forall n, In n names -> file_exists (source_dir n) = true ->
               exists merged,
                 Merger.merge_file reads_as n (source_dir n) (target n)
                   strategy
                 = Ok merged) ->
    exists results' target',
      for_each (Merger.merge_all_step reads_as source_dir strategy) names
        (results, target) = Ok (results', target') /\
      (forall n, In n names ->
                 settled reads_as source_dir strategy results' target target'
                   n) /\
      (forall n, ~ In n names ->
                 dget results' n = dget results n /\ target' n = target n).
Proof.
  induction names as [| a names IH]; intros U results target H.
  - exists results, target. cbn. intuition.
  - cbn [uniq] in U. apply andb_true_iff in U as [U1 U2].
    apply negb_true_iff in U1.
    assert (NA : forall n, In n names -> a <> n).
    { intros n I ->. clear - U1 I.
      induction names as [| b l IHl]; [destruct I |]. cbn in U1.
      apply orb_false_iff in U1 as [E U1].
      destruct I as [-> | I]; [now rewrite String.eqb_refl in E | auto]. }
    cbn [for_each]. unfold Merger.merge_all_step at 1.
    destruct (file_exists (source_dir a)) eqn:E.
    + destruct (H a (or_introl eq_refl) E) as [m M]. rewrite M. cbn [bind].
      destruct (IH U2 (dset results a (Some (Merger.returned m)))
                  (write target a (Merger.target_after m)))
        as (results' & target' & F & P & Q).
      { intros n I X. destruct (H n (or_intror I) X) as [m' M'].
        exists m'. unfold write. pose proof (NA n I) as N.
        apply not_eq_sym, String.eqb_neq in N. now rewrite N. }
      exists results', target'. split; [exact F |]. split.
      * intros n [<- | I].
        -- destruct (in_dec String.string_dec a names) as [I | NI];
             [now destruct (NA a I) |].
           destruct (Q a NI) as [Q1 Q2]. unfold settled. rewrite E.
           exists m. rewrite Q1, Q2, dget_dset_same. unfold write.
           now rewrite String.eqb_refl.
        -- specialize (P n I). unfold settled in *.
           pose proof (NA n I) as N.
           apply not_eq_sym, String.eqb_neq in N.
           unfold write in P. now rewrite N in P.
      * intros n NI.
        destruct (Q n) as [Q1 Q2]; [intros I; apply NI; now right |].
        assert (N : a <> n) by (intros ->; apply NI; now left).
        rewrite Q1, Q2, dget_dset_other by exact N. unfold write.
        apply not_eq_sym, String.eqb_neq in N. now rewrite N.
    + destruct (IH U2 (dset results a None) target)
        as (results' & target' & F & P & Q).
      { intros n I X. exact (H n (or_intror I) X). }
      exists results', target'. split; [exact F |]. split.
      * intros n [<- | I]; [| exact (P n I)].
        destruct (in_dec String.string_dec a names) as [I | NI];
          [now destruct (NA a I) |].
        destruct (Q a NI) as [Q1 Q2]. unfold settled. rewrite E.
        now rewrite Q1, Q2, dget_dset_same.
      * intros n NI.
        destruct (Q n) as [Q1 Q2]; [intros I; apply NI; now right |].
        assert (N : a <> n) by (intros ->; apply NI; now left).
        now rewrite Q1, Q2, dget_dset_other by exact N.
Qed.

End Batch.

(** X9.  [merge_all_files] settles each of the five files on its own,
    against the target file of the same name: an absent Backstage file is
    recorded as [None] and its target left alone; any other is recorded
    with what [merge_file] returns and its target is what [merge_file]
    leaves, so a file that fails neither stops nor undoes the others.  No
    other file of the target directory is touched. *)
Theorem merge_all_files_per_file (reads_as : Merger.saved -> file)
    source_dir target strategy :
  (forall n, In n Merger.backstage_files ->
             file_exists (source_dir n) = true ->
             exists merged,
               Merger.merge_file reads_as n (source_dir n) (target n)
                 strategy
               = Ok merged) ->
  exists results target',
    Merger.merge_all_files reads_as source_dir target strategy
    = Ok (results, target') /\
    (forall n, In n Merger.backstage_files ->
       if file_exists (source_dir n)
       then exists merged,
              Merger.merge_file reads_as n (source_dir n) (target n)
                strategy
              = Ok merged /\
              dget results n = Some (Some (Merger.returned merged)) /\
              target' n = Merger.target_after merged
       else dget results n = Some None /\ target' n = target n) /\
    (forall n, ~ In n Merger.backstage_files ->
               dget results n = None /\ target' n = target n).
Proof.
  intros H. unfold Merger.merge_all_files.
  destruct (@merge_all_from reads_as source_dir strategy
              Merger.backstage_files eq_refl [] target H)
    as (results & target' & F & P & Q).
  now exists results, target'.
Qed.

Lemma merge_all_files_per_file_witness :
  exists results target',
    Merger.merge_all_files Samples.reads_back DirectorySamples.source_dir
      DirectorySamples.target_dir "fail-on-conflict"
    = Ok (results, target') /\
    results = [("a-records.yaml", Some false);
               ("cname-records.yaml", Some true);
               ("host-records.yaml", None);
               ("networks.yaml", None);
               ("dns-zones.yaml", None)] /\
    target' "a-records.yaml" = Parsed (VDict Samples.existing) /\
    target' "cname-records.yaml" = Parsed (VDict Samples.incoming) /\
    (forall n, ~ In n Merger.backstage_files ->
               dget results n = None /\
               target' n = DirectorySamples.target_dir n).
Proof.
  destruct (@merge_all_files_per_file Samples.reads_back
              DirectorySamples.source_dir
              DirectorySamples.target_dir "fail-on-conflict")
    as (results & target' & F & _ & Q).
  { intros n [<- | [<- | [<- | [<- | [<- | []]]]]] E;
      try discriminate E; eexists; reflexivity. }
  exists results, target'. split; [exact F |].
  vm_compute in F. injection F as <- <-. repeat split; try reflexivity;
    apply (Q n); assumption.
Defined.

(** X10.  After [create_backup] the backup directory holds, under the
    same name, each of the five configuration files the target directory
    holds, and nothing else in it has changed. *)
Theorem create_backup_snapshot (target backup_dir : directory) (n : string) :
  Merger.create_backup target backup_dir n
  = if str_mem n Merger.config_files && file_exists (target n)
    then target n else backup_dir n.
Proof.
  unfold Merger.create_backup. generalize Merger.config_files as names.
  intros names. revert backup_dir.
  induction names as [| a names IH]; intros backup_dir; [reflexivity |].
  cbn [fold_left str_mem]. rewrite IH. unfold Merger.backup_step, write.
  destruct (String.eqb_spec a n) as [-> | N].
  - destruct (str_mem n names), (file_exists (target n)) eqn:E;
      cbn [orb andb]; rewrite ?String.eqb_refl; reflexivity.
  - apply not_eq_sym, String.eqb_neq in N.
    destruct (str_mem n names), (file_exists (target n)),
      (file_exists (target a)); cbn [orb andb]; rewrite ?N; reflexivity.
Qed.

(** * The registry: what loading computes *)

Section RegistryFacts.

Lemma get_tag (entry : value) (name : string) :
  py_get (VDict (tags_of entry)) name VNone = Ok (tag_value entry name).
Proof. reflexivity. Qed.

Lemma extract_step_record source reg item :
  loadable_entry (snd item) = true ->
  Manager.extract_step source reg item
  = Ok (fold_left register (record_of source item) reg).
Proof.
  destruct item as [k v]. cbn [snd]. intros L.
  unfold Manager.extract_step, record_of. cbn [fst snd].
  destruct v as [| | | | |cfg]; try reflexivity.
  cbn [loadable_entry] in L. apply andb_true_iff in L as [W H].
  rewrite (get_tags _ W). cbn [bind]. rewrite !get_tag. cbn [bind].
  unfold owned in *.
  destruct (py_eq (tag_value (VDict cfg) "CreatedBy") (VStr "backstage"));
    [| reflexivity].
  rewrite ?get_tag. cbn [bind andb] in *.
  destruct (truthy (tag_value (VDict cfg) "BackstageId")); [| reflexivity].
  rewrite ?get_tag. cbn [bind negb orb] in *. now rewrite H.
Qed.

Lemma fold_left_flat_map (A B S : Type) (f : S -> B -> S) (g : A -> list B)
    (l : list A) :
  forall s,
    fold_left f (flat_map g l) s
    = fold_left (fun acc x => fold_left f (g x) acc) l s.
Proof.
  induction l as [| x l IH]; intros s; [reflexivity |].
  cbn [flat_map fold_left]. now rewrite fold_left_app, IH.
Qed.

Lemma extract_records (data : dict value) source reg :
  forallb (fun item => loadable_entry (snd item)) data = true ->
  Manager.extract_backstage_resources data source reg
  = Ok (fold_left register (flat_map (record_of source) data) reg).
Proof.
  intros L. unfold Manager.extract_backstage_resources.
  rewrite for_each_fold
    with (f := fun acc x => fold_left register (record_of source x) acc).
  - now rewrite fold_left_flat_map.
  - intros s x I. apply extract_step_record.
    rewrite forallb_forall in L. exact (L x I).
Qed.

Lemma load_step_records fs reg name :
  loadable_file (fs name) = true ->
  Manager.load_step fs reg name
  = Ok (fold_left register (candidates_in fs name) reg).
Proof.
  unfold Manager.load_step, candidates_in, loadable_file, document_of.
  destruct (fs name) as [| |v]; [reflexivity | discriminate |].
  destruct (truthy v) eqn:T.
  - destruct v as [| | | | |d]; try discriminate.
    cbn [as_dict bind]. apply extract_records.
  - intros _. cbn [as_dict bind].
    destruct v as [| | | | |d]; try reflexivity.
    destruct d; [reflexivity | discriminate T].
Qed.

Lemma load_records fs :
  loadable fs = true ->
  Manager.load_configurations fs = Ok (fold_left register (candidates fs) []).
Proof.
  intros L. unfold Manager.load_configurations, candidates.
  rewrite for_each_fold
    with (f := fun acc name => fold_left register (candidates_in fs name) acc).
  - now rewrite fold_left_flat_map.
  - intros s name I. apply load_step_records.
    unfold loadable in L. rewrite forallb_forall in L. exact (L name I).
Qed.

Lemma py_eq_str_l (v : value) (s : string) :
  py_eq (VStr s) v = true <-> v = VStr s.
Proof.
  destruct v; simpl; try (split; [discriminate | congruence]).
  rewrite String.eqb_eq. split; congruence.
Qed.

(** Insert then look up, for an identifier that is a string. *)
Lemma rget_rset reg k info (i : string) :
  Manager.rget (Manager.rset reg k info) (VStr i)
  = if py_eq k (VStr i) then Some info else Manager.rget reg (VStr i).
Proof.
  induction reg as [| [k0 v0] reg IH]; cbn [Manager.rset Manager.rget].
  - reflexivity.
  - destruct (py_eq k0 k) eqn:E0; cbn [Manager.rget].
    + destruct (py_eq k0 (VStr i)) eqn:E1.
      * apply py_eq_str in E1. subst k0. apply py_eq_str_l in E0. subst k.
        cbn [py_eq]. now rewrite String.eqb_refl.
      * destruct (py_eq k (VStr i)) eqn:E2; [| reflexivity].
        apply py_eq_str in E2. subst k. apply py_eq_str in E0. subst k0.
        cbn [py_eq] in E1. now rewrite String.eqb_refl in E1.
    + rewrite IH. destruct (py_eq k0 (VStr i)) eqn:E1; [| reflexivity].
      apply py_eq_str in E1. subst k0.
      destruct (py_eq k (VStr i)) eqn:E2; [| reflexivity].
      apply py_eq_str in E2. subst k. cbn [py_eq] in E0.
      now rewrite String.eqb_refl in E0.
Qed.

Lemma rget_fold_register (i : string)
    (l : list (value * Manager.resource_info)) :
  forall reg,
    Manager.rget (fold_left register l reg) (VStr i)
    = fold_left (fun acc c =>
                   if py_eq (fst c) (VStr i) then Some (snd c) else acc)
                l (Manager.rget reg (VStr i)).
Proof.
  induction l as [| c l IH]; intros reg; [reflexivity |].
  cbn [fold_left]. rewrite IH. unfold register. now rewrite rget_rset.
Qed.

Lemma last_with_id_In (i : string) (l : list (value * Manager.resource_info))
    info :
  last_with_id i l = Some info ->
  exists id, In (id, info) l /\ py_eq id (VStr i) = true.
Proof.
  unfold last_with_id.
  assert (G : forall acc,
             fold_left (fun acc c =>
                          if py_eq (fst c) (VStr i) then Some (snd c)
                          else acc) l acc = Some info ->
             acc = Some info \/
             exists id, In (id, info) l /\ py_eq id (VStr i) = true).
  { induction l as [| [id0 info0] l IH]; intros acc H; [now left |].
    cbn [fold_left fst snd] in H. apply IH in H as [H | (id & I & E)].
    - destruct (py_eq id0 (VStr i)) eqn:E; [| now left].
      injection H as ->. right. exists id0. split; [now left | exact E].
    - right. exists id. split; [now right | exact E]. }
  intros H. apply G in H as [H | H]; [discriminate | exact H].
Qed.

Lemma candidates_In fs id info :
  In (id, info) (candidates fs) ->
  In (Manager.source_file info) Manager.config_files /\
  exists entry,
    In (Manager.resource_name info, entry)
       (document_of (fs (Manager.source_file info))) /\
    owned entry = true /\
    id = tag_value entry "BackstageId" /\
    entry = VDict (Manager.config info).
Proof.
  unfold candidates, candidates_in. intros I.
  apply in_flat_map in I as [name [I1 I2]].
  apply in_flat_map in I2 as [[k v] [I2 I3]].
  unfold record_of in I3. cbn [fst snd] in I3.
  destruct v as [| | | | |cfg]; try contradiction.
  destruct (owned (VDict cfg)) eqn:O; [| contradiction].
  destruct I3 as [[= <- <-] | []]. cbn. split; [exact I1 |].
  exists (VDict cfg). auto.
Qed.

End RegistryFacts.

(** X11.  Loading a directory whose files are missing, empty or mappings
    of loadable entries never raises, and looking an identifier up in the
    registry gives the record of the last entry that carries it, in the
    order the files are read and the documents are walked (last write
    wins), or nothing when no entry carries it. *)
Theorem load_last_write_wins (fs : directory) :
  loadable fs = true ->
  exists reg,
    Manager.load_configurations fs = Ok reg /\
    forall backstage_id,
      Manager.rget reg (VStr backstage_id)
      = last_with_id backstage_id (candidates fs).
Proof.
  intros L. eexists. split; [now apply load_records |].
  intros i. now rewrite rget_fold_register.
Qed.

Lemma load_last_write_wins_witness :
  exists reg,
    Manager.load_configurations RegistrySamples.directory = Ok reg /\
    forall backstage_id,
      Manager.rget reg (VStr backstage_id)
      = last_with_id backstage_id (candidates RegistrySamples.directory).
Proof.
  apply (load_last_write_wins RegistrySamples.directory). reflexivity.
Defined.

Lemma for_each_raises (A S : Type) (body : S -> A -> res S) (l : list A)
    (x : A) :
  In x l -> (forall s, body s x = Exn) -> forall s, for_each body l s = Exn.
Proof.
  intros I H. induction l as [| a l IH]; [destruct I |]. intros s.
  cbn [for_each]. destruct I as [-> | I].
  - now rewrite H.
  - destruct (body s a); [cbn [bind]; now apply IH | reflexivity].
Qed.

(** X12.  One configuration file that does not parse, or that parses to
    something non-empty that is not a mapping, makes the loading of the
    registry raise, whatever the other files hold: here no error is
    caught. *)
Theorem load_raises_on_bad_file (fs : directory) (name : string) :
  In name Manager.config_files ->
  fs name = Unparsable \/
  (exists v, fs name = Parsed v /\ truthy v = true /\ as_dict v = Exn) ->
  Manager.load_configurations fs = Exn.
Proof.
  intros I B. unfold Manager.load_configurations.
  apply for_each_raises with (x := name); [exact I |].
  intros reg. unfold Manager.load_step.
  destruct B as [-> | (v & -> & T & D)]; [reflexivity |].
  now rewrite T, D.
Qed.

Lemma load_raises_on_bad_file_witness :
  Manager.load_configurations
    (write RegistrySamples.directory "networks.yaml" Unparsable)
  = Exn.
Proof.
  apply (@load_raises_on_bad_file
           (write RegistrySamples.directory "networks.yaml" Unparsable)
           "networks.yaml").
  - simpl. tauto.
  - left. reflexivity.
Defined.

Section Listing.

Lemma leb_of_compare (a b : string) :
  String.compare a b = Lt -> String.leb a b = true.
Proof. unfold String.leb. now intros ->. Qed.

Lemma leb_of_not_lt (a b : string) :
  String.compare b a <> Lt -> String.leb a b = true.
Proof.
  unfold String.leb. rewrite (String.compare_antisym a b).
  destruct (String.compare b a); simpl; congruence.
Qed.

Lemma insert_by_stamp (x : Manager.resource) (l : list Manager.resource) :
  string_keyed Manager.sort_key (x :: l) ->
  Sorted stamp_le l ->
  exists r,
    Manager.insert_by Manager.sort_key x l = Ok r /\
    Sorted stamp_le r /\
    (forall z, stamp_le z x -> HdRel stamp_le z l -> HdRel stamp_le z r).
Proof.
  induction l as [| y l IH]; intros K S; cbn [Manager.insert_by].
  - exists [x]. repeat split; auto.
  - destruct (K x) as [sx Ex]; [now left |].
    destruct (K y) as [sy Ey]; [right; now left |].
    rewrite Ex, Ey. unfold py_lt. cbn [py_compare bind].
    assert (Sx : stamp x = sx) by (unfold stamp; now rewrite Ex).
    assert (Sy : stamp y = sy) by (unfold stamp; now rewrite Ey).
    destruct (String.compare sy sx) eqn:C.
    + exists (x :: y :: l). split; [reflexivity |]. split.
      * constructor; [exact S |]. constructor. unfold stamp_le.
        rewrite Sx, Sy. apply leb_of_not_lt. congruence.
      * intros z Z _. now constructor.
    + inversion S as [| ? ? S' H']; subst.
      destruct IH as (r & E & Sr & Hr); [| exact S' |].
      { intros z [<- | H]; apply K; [now left | right; now right]. }
      rewrite E. exists (y :: r). split; [reflexivity |]. split.
      * constructor; [exact Sr |]. apply Hr; [| exact H'].
        unfold stamp_le. now apply leb_of_compare.
      * intros z _ Z. inversion Z; subst. now constructor.
    + exists (x :: y :: l). split; [reflexivity |]. split.
      * constructor; [exact S |]. constructor. unfold stamp_le.
        rewrite Sx, Sy. apply leb_of_not_lt. congruence.
      * intros z Z _. now constructor.
Qed.

Lemma py_sorted_stamp (l : list Manager.resource) :
  string_keyed Manager.sort_key l ->
  exists r,
    Manager.py_sorted Manager.sort_key l = Ok r /\
    Sorted stamp_le r /\ Permutation l r.
Proof.
  induction l as [| x l IH]; intros K; cbn [Manager.py_sorted].
  - exists []. repeat split; auto.
  - destruct IH as (s & E & Ss & P); [intros z H; apply K; now right |].
    rewrite E. cbn [bind].
    assert (K' : string_keyed Manager.sort_key (x :: s)).
    { intros z [<- | H]; apply K; [now left | right].
      apply Permutation_in with s; [now apply Permutation_sym | exact H]. }
    destruct (insert_by_stamp K' Ss) as (r & E' & Sr & _).
    destruct (insert_by_strings K') as (r' & E'' & P').
    rewrite E' in E''. injection E'' as <-.
    exists r. repeat split; auto.
    apply perm_trans with (x :: s); [now apply perm_skip | exact P'].
Qed.

Lemma stamps_ok_keyed (reg : Manager.registry) :
  stamps_ok reg = true ->
  string_keyed Manager.sort_key (flat_map described reg).
Proof.
  intros R r I. apply in_flat_map in I as [[id info] [I1 [<- | []]]].
  unfold stamps_ok in R. rewrite forallb_forall in R.
  specialize (R _ I1). cbn [fst snd] in *.
  unfold Manager.sort_key, Manager.describe. cbn [Manager.r_created_at].
  destruct (Manager.created_at info) as [| b | z | s | l | d];
    cbn [truthy] in *; try (apply negb_true_iff in R; rewrite R);
    try (now eexists).
  destruct (negb (s =? "")%string); now eexists.
Qed.

Lemma registry_ok_stamps (reg : Manager.registry) :
  registry_ok reg = true -> stamps_ok reg = true.
Proof.
  unfold registry_ok, stamps_ok. rewrite !forallb_forall. intros H x I.
  specialize (H x I). unfold record_ok in H.
  now apply andb_true_iff in H as [_ H].
Qed.

Lemma list_loop_empty_filter reg :
  for_each (Manager.list_step (Some "")) reg []
  = Ok (flat_map described reg).
Proof.
  rewrite for_each_fold with (f := fun acc x => acc ++ described x).
  - now rewrite fold_left_app_flat_map.
  - now intros acc [id info] _.
Qed.

End Listing.

(** X13.  A listing, filtered or not, comes out in ascending order of
    [CreatedAt], a record without timestamp counting as the empty string
    and so coming first. *)
Theorem list_is_sorted (reg : Manager.registry)
    (entity_filter : option string) :
  registry_ok reg = true ->
  exists listed,
    Manager.list_backstage_resources reg entity_filter = Ok listed /\
    Sorted stamp_le listed.
Proof.
  intros R. unfold Manager.list_backstage_resources.
  destruct entity_filter as [f|].
  - rewrite list_loop_filtered by assumption. cbn [bind].
    destruct (@py_sorted_stamp (flat_map (kept f) reg))
      as (listed & E & S & _).
    { apply string_keyed_flat_map; [assumption |].
      intros item r. unfold kept.
      destruct (Manager.entity_name (snd item)); try (intros []).
      destruct (str_contains f s); [| intros []].
      intros [<- | []]. reflexivity. }
    now exists listed.
  - rewrite list_loop_all. cbn [bind].
    destruct (@py_sorted_stamp (flat_map described reg))
      as (listed & E & S & _).
    { now apply stamps_ok_keyed, registry_ok_stamps. }
    now exists listed.
Qed.

Lemma list_is_sorted_witness :
  exists listed,
    Manager.list_backstage_resources RegistrySamples.three (Some "app")
    = Ok listed /\
    Sorted stamp_le listed /\
    map Manager.r_resource_name listed = ["undated"; "early"; "late"].
Proof.
  destruct (@list_is_sorted RegistrySamples.three (Some "app") eq_refl)
    as (listed & E & S).
  exists listed. split; [exact E |]. split; [exact S |].
  vm_compute in E. injection E as <-. reflexivity.
Defined.

(** X14.  A listing without filter, or with the empty filter, returns one
    resource for each record of the registry, whatever the entity names
    are. *)
Theorem list_unfiltered_is_complete (reg : Manager.registry)
    (entity_filter : option string) :
  stamps_ok reg = true ->
  entity_filter = None \/ entity_filter = Some ""%string ->
  exists listed,
    Manager.list_backstage_resources reg entity_filter = Ok listed /\
    Permutation
      (map (fun item => Manager.describe (fst item) (snd item)) reg) listed.
Proof.
  intros R F. unfold Manager.list_backstage_resources.
  assert (L : for_each (Manager.list_step entity_filter) reg []
              = Ok (flat_map described reg)).
  { destruct F as [-> | ->];
      [apply list_loop_all | apply list_loop_empty_filter]. }
  rewrite L. cbn [bind].
  destruct (@py_sorted_stamp (flat_map described reg))
    as (listed & E & _ & P); [now apply stamps_ok_keyed |].
  exists listed. split; [exact E |].
  assert (M : flat_map described reg
              = map (fun item => Manager.describe (fst item) (snd item)) reg).
  { clear. induction reg as [| c reg IH]; [reflexivity |].
    cbn [flat_map map]. now rewrite IH. }
  now rewrite <- M.
Qed.

Lemma list_unfiltered_is_complete_witness :
  exists listed,
    Manager.list_backstage_resources RegistrySamples.reg (Some "")
    = Ok listed /\
    Permutation
      (map (fun item => Manager.describe (fst item) (snd item))
           RegistrySamples.reg) listed.
Proof.
  apply (@list_unfiltered_is_complete RegistrySamples.reg (Some ""));
    [reflexivity | now right].
Defined.

(** * Removing a resource *)

Section Removal.

Variable V : Type.
Implicit Types (d : dict V) (k : string).

Lemma dget_ddel_other d k k' : k <> k' -> dget (ddel d k) k' = dget d k'.
Proof.
  intros N. induction d as [| [k0 v0] d IH]; [reflexivity |].
  cbn [ddel dget]. destruct (String.eqb_spec k0 k) as [-> | N0].
  - apply String.eqb_neq in N. now rewrite N.
  - cbn [dget]. now rewrite IH.
Qed.

Lemma In_ddel d k k' v :
  dict_wf d = true -> In (k', v) (ddel d k) -> In (k', v) d /\ k' <> k.
Proof.
  unfold dict_wf. induction d as [| [k0 v0] d IH]; [intros _ [] |].
  cbn [keys map fst uniq ddel]. intros W.
  apply andb_true_iff in W as [W1 W2]. apply negb_true_iff in W1.
  change (str_mem k0 (keys d) = false) in W1. rewrite str_mem_keys in W1.
  destruct (String.eqb_spec k0 k) as [-> | N0].
  - intros I. split; [now right |]. intros ->.
    apply dmem_of_In in I. congruence.
  - intros [[= -> ->] | I]; [split; [now left | exact N0] |].
    destruct (IH W2 I) as [I' N']. split; [now right | exact N'].
Qed.

Lemma dget_ddel_same d k : dict_wf d = true -> dget (ddel d k) k = None.
Proof.
  intros W. destruct (dget (ddel d k) k) as [v|] eqn:G; [| reflexivity].
  apply dget_In in G. now destruct (@In_ddel d k k v W G).
Qed.

End Removal.

Lemma registered_entry fs reg backstage_id info :
  loadable fs = true ->
  Manager.load_configurations fs = Ok reg ->
  Manager.rget reg (VStr backstage_id) = Some info ->
  exists id entry,
    In (id, info) (candidates fs) /\ py_eq id (VStr backstage_id) = true /\
    fs (Manager.source_file info)
    = Parsed (VDict (document_of (fs (Manager.source_file info)))) /\
    In (Manager.resource_name info, entry)
       (document_of (fs (Manager.source_file info))).
Proof.
  intros L E G. rewrite (@load_records fs L) in E. injection E as <-.
  rewrite rget_fold_register in G. cbn [Manager.rget] in G.
  apply last_with_id_In in G as (id & I & P).
  destruct (@candidates_In fs id info I) as (_ & entry & I' & _).
  exists id, entry. repeat split; try assumption.
  unfold document_of in *.
  destruct (fs (Manager.source_file info)) as [| |[| | | | |d]];
    try contradiction. reflexivity.
Qed.

(** X15.  With the registry loaded from the directory as it is, removing
    an identifier the registry holds always succeeds: the file named in the
    record holds the resource key, and it is rewritten without it. *)
Theorem remove_registered_succeeds fs reg backstage_id info :
  loadable fs = true ->
  Manager.load_configurations fs = Ok reg ->
  Manager.rget reg (VStr backstage_id) = Some info ->
  exists d,
    fs (Manager.source_file info) = Parsed (VDict d) /\
    dmem d (Manager.resource_name info) = true /\
    Manager.remove_backstage_resource reg fs backstage_id
    = Ok (true,
          write fs (Manager.source_file info)
            (Parsed (VDict (ddel d (Manager.resource_name info))))).
Proof.
  intros L E G.
  destruct (@registered_entry fs reg backstage_id info L E G)
    as (id & entry & _ & _ & F & I).
  exists (document_of (fs (Manager.source_file info))).
  pose proof (@dmem_of_In _ _ _ _ I) as M.
  split; [exact F |]. split; [exact M |].
  unfold Manager.remove_backstage_resource. rewrite G. cbv zeta. rewrite F.
  assert (T : truthy (VDict (document_of (fs (Manager.source_file info))))
              = true).
  { cbn [truthy]. now destruct (document_of _); [destruct I |]. }
  rewrite T. cbn [Manager.py_in bind]. now rewrite M.
Qed.

Lemma remove_registered_succeeds_witness :
  exists d,
    RegistrySamples.directory "a-records.yaml" = Parsed (VDict d) /\
    dmem d "old_app_server" = true /\
    Manager.remove_backstage_resource RegistrySamples.reg
      RegistrySamples.directory "old-app-test-20250901120000"
    = Ok (true,
          write RegistrySamples.directory "a-records.yaml"
            (Parsed (VDict (ddel d "old_app_server")))).
Proof.
  apply (@remove_registered_succeeds RegistrySamples.directory
           RegistrySamples.reg "old-app-test-20250901120000"
           RegistrySamples.old_app_info); reflexivity.
Defined.

(** X16.  What [remove_backstage_resource] does to the directory.  When
    it returns [True], one file has been rewritten, the one the record
    names: its document has lost the resource key and holds every other
    entry as before.  When it returns [False], nothing has been
    written. *)
Theorem remove_effect reg fs backstage_id removed fs' :
  Manager.remove_backstage_resource reg fs backstage_id
  = Ok (removed, fs') ->
  if removed
  then exists info d d',
         Manager.rget reg (VStr backstage_id) = Some info /\
         fs (Manager.source_file info) = Parsed (VDict d) /\
         fs' (Manager.source_file info) = Parsed (VDict d') /\
         (forall name, name <> Manager.source_file info ->
                       fs' name = fs name) /\
         (forall k, k <> Manager.resource_name info ->
                    dget d' k = dget d k) /\
         (dict_wf d = true -> dget d' (Manager.resource_name info) = None)
  else fs' = fs.
Proof.
  unfold Manager.remove_backstage_resource.
  destruct (Manager.rget reg (VStr backstage_id)) as [info|];
    [| now intros [= <- <-]].
  cbv zeta. destruct (fs (Manager.source_file info)) as [| |v] eqn:F;
    try discriminate.
  destruct (Manager.py_in (Manager.resource_name info)
              (if truthy v then v else VDict [])) as [[|]|] eqn:P;
    cbn [bind]; [| now intros [= <- <-] | discriminate].
  destruct (truthy v) eqn:T;
    [| cbn in P; discriminate].
  destruct v as [| | | | |d]; try discriminate.
  intros [= <- <-].
  exists info, d, (ddel d (Manager.resource_name info)).
  unfold write. rewrite String.eqb_refl. repeat split; try assumption.
  - intros name N. apply String.eqb_neq in N. now rewrite N.
  - intros k N. apply dget_ddel_other. congruence.
  - apply dget_ddel_same.
Qed.

Lemma remove_effect_witness :
  exists info d d',
    Manager.rget RegistrySamples.reg (VStr "old-app-test-20250901120000")
    = Some info /\
    RegistrySamples.directory (Manager.source_file info)
    = Parsed (VDict d) /\
    write RegistrySamples.directory "a-records.yaml"
      (Parsed (VDict [("legacy_web_server", RegistrySamples.legacy)]))
      (Manager.source_file info)
    = Parsed (VDict d') /\
    (forall name, name <> Manager.source_file info ->
       write RegistrySamples.directory "a-records.yaml"
         (Parsed (VDict [("legacy_web_server", RegistrySamples.legacy)]))
         name
       = RegistrySamples.directory name) /\
    (forall k, k <> Manager.resource_name info -> dget d' k = dget d k) /\
    (dict_wf d = true -> dget d' (Manager.resource_name info) = None).
Proof.
  exact (@remove_effect RegistrySamples.reg RegistrySamples.directory
           "old-app-test-20250901120000" true
           (write RegistrySamples.directory "a-records.yaml"
              (Parsed (VDict [("legacy_web_server",
                               RegistrySamples.legacy)])))
           eq_refl).
Defined.

(** X17.  The registry is not refreshed by a removal: asked a second time
    to remove the same identifier, the same manager finds the record,
    misses the key in the file and returns [False], writing nothing. *)
Theorem remove_twice fs reg backstage_id info :
  loadable fs = true ->
  Manager.load_configurations fs = Ok reg ->
  Manager.rget reg (VStr backstage_id) = Some info ->
  dict_wf (document_of (fs (Manager.source_file info))) = true ->
  exists fs',
    Manager.remove_backstage_resource reg fs backstage_id = Ok (true, fs') /\
    Manager.remove_backstage_resource reg fs' backstage_id
    = Ok (false, fs').
Proof.
  intros L E G W.
  destruct (@registered_entry fs reg backstage_id info L E G)
    as (id & entry & _ & _ & F & I).
  pose proof (@dmem_of_In _ _ _ _ I) as M.
  remember (document_of (fs (Manager.source_file info))) as d eqn:D.
  exists (write fs (Manager.source_file info)
            (Parsed (VDict (ddel d (Manager.resource_name info))))).
  split.
  - unfold Manager.remove_backstage_resource. rewrite G. cbv zeta. rewrite F.
    assert (T : truthy (VDict d) = true)
      by (cbn [truthy]; now destruct d; [destruct I |]).
    rewrite T. cbn [Manager.py_in bind]. now rewrite M.
  - unfold Manager.remove_backstage_resource. rewrite G. cbv zeta.
    unfold write at 1. rewrite String.eqb_refl.
    assert (N : dmem (ddel d (Manager.resource_name info))
                  (Manager.resource_name info) = false)
      by (unfold dmem; now rewrite dget_ddel_same).
    destruct (truthy (VDict (ddel d (Manager.resource_name info))));
      cbn [Manager.py_in bind]; [now rewrite N | reflexivity].
Qed.

Lemma remove_twice_witness :
  exists fs',
    Manager.remove_backstage_resource RegistrySamples.reg
      RegistrySamples.directory "old-app-test-20250901120000"
    = Ok (true, fs') /\
    Manager.remove_backstage_resource RegistrySamples.reg fs'
      "old-app-test-20250901120000"
    = Ok (false, fs').
Proof.
  apply (@remove_twice RegistrySamples.directory RegistrySamples.reg
           "old-app-test-20250901120000" RegistrySamples.old_app_info);
    reflexivity.
Defined.

Section Reload.

Lemma record_of_In name item id info :
  In (id, info) (record_of name item) ->
  Manager.source_file info = name /\ Manager.resource_name info = fst item.
Proof.
  unfold record_of. destruct (snd item); try (intros []).
  destruct (owned _); [| intros []]. intros [[= <- <-] | []]. auto.
Qed.

Lemma candidates_after_remove fs f (d : dict value) k id info :
  fs f = Parsed (VDict d) -> dict_wf d = true ->
  In (id, info) (candidates (write fs f (Parsed (VDict (ddel d k))))) ->
  In (id, info) (candidates fs) /\
  ~ (Manager.source_file info = f /\ Manager.resource_name info = k).
Proof.
  intros F W I. unfold candidates in *.
  apply in_flat_map in I as [name [I1 I2]]. unfold candidates_in in I2.
  apply in_flat_map in I2 as [item [I2 I3]].
  destruct (@record_of_In name item id info I3) as [S R].
  unfold write in I2. destruct (String.eqb_spec name f) as [-> | N].
  - cbn [document_of] in I2. destruct item as [k' v].
    destruct (@In_ddel _ d k k' v W I2) as [I' N']. split.
    + apply in_flat_map. exists f. split; [exact I1 |].
      unfold candidates_in. apply in_flat_map. exists (k', v).
      rewrite F. cbn [document_of]. auto.
    + intros [_ R']. cbn [fst] in R. congruence.
  - split.
    + apply in_flat_map. exists name. split; [exact I1 |].
      unfold candidates_in. apply in_flat_map. now exists item.
    + intros [S' _]. congruence.
Qed.

Lemma loadable_after_remove fs f (d : dict value) k :
  loadable fs = true -> fs f = Parsed (VDict d) -> dict_wf d = true ->
  loadable (write fs f (Parsed (VDict (ddel d k)))) = true.
Proof.
  unfold loadable. rewrite !forallb_forall. intros L F W name I.
  specialize (L name I). unfold write.
  destruct (String.eqb_spec name f) as [-> | N]; [| exact L].
  rewrite F in L. cbn [loadable_file truthy] in *.
  destruct (negb (is_nil (ddel d k))); [| reflexivity].
  destruct (negb (is_nil d)) eqn:E.
  - rewrite forallb_forall in *. intros [k' v] I'.
    apply L. now destruct (@In_ddel _ d k k' v W I').
  - destruct d; [reflexivity | discriminate E].
Qed.

End Reload.

(** X18.  After a removal, a registry loaded afresh from the directory no
    longer knows the identifier, provided a single entry carried it. *)
Theorem reload_after_remove fs reg backstage_id info :
  loadable fs = true ->
  Manager.load_configurations fs = Ok reg ->
  Manager.rget reg (VStr backstage_id) = Some info ->
  dict_wf (document_of (fs (Manager.source_file info))) = true ->
  (forall id' info',
     In (id', info') (candidates fs) ->
     py_eq id' (VStr backstage_id) = true ->
     Manager.source_file info' = Manager.source_file info /\
     Manager.resource_name info' = Manager.resource_name info) ->
  exists fs' reg',
    Manager.remove_backstage_resource reg fs backstage_id = Ok (true, fs') /\
    Manager.load_configurations fs' = Ok reg' /\
    Manager.rget reg' (VStr backstage_id) = None.
Proof.
  intros L E G W U.
  destruct (@registered_entry fs reg backstage_id info L E G)
    as (id & entry & _ & _ & F & I).
  pose proof (@dmem_of_In _ _ _ _ I) as M.
  remember (document_of (fs (Manager.source_file info))) as d eqn:D.
  pose proof (@loadable_after_remove fs _ d (Manager.resource_name info)
                L F W) as L'.
  do 2 eexists. split; [| split].
  - unfold Manager.remove_backstage_resource. rewrite G. cbv zeta. rewrite F.
    assert (T : truthy (VDict d) = true)
      by (cbn [truthy]; now destruct d; [destruct I |]).
    rewrite T. cbn [Manager.py_in bind]. rewrite M. reflexivity.
  - apply (@load_records _ L').
  - rewrite rget_fold_register. cbn [Manager.rget].
    match goal with
    | |- ?l = None => destruct l as [info'|] eqn:X; [| reflexivity]
    end.
    apply last_with_id_In in X as (id' & I' & P).
    destruct (@candidates_after_remove fs _ d _ id' info' F W I') as [I0 N].
    destruct (U _ _ I0 P). now destruct N.
Qed.

Lemma reload_after_remove_witness :
  exists fs' reg',
    Manager.remove_backstage_resource RegistrySamples.reg
      RegistrySamples.directory "old-app-test-20250901120000"
    = Ok (true, fs') /\
    Manager.load_configurations fs' = Ok reg' /\
    Manager.rget reg' (VStr "old-app-test-20250901120000") = None.
Proof.
  apply (@reload_after_remove RegistrySamples.directory RegistrySamples.reg
           "old-app-test-20250901120000" RegistrySamples.old_app_info);
    try reflexivity.
  intros id' info' [[= <- <-] | []] _. split; reflexivity.
Defined.

(** * From a listing to a cleanup plan *)

Section ListedThenCleaned.

Lemma rset_string_ids_once reg k info :
  string_ids_once reg -> string_ids_once (Manager.rset reg k info).
Proof.
  induction reg as [| [k0 v0] reg IH]; cbn [Manager.rset string_ids_once].
  - intros _. split; [reflexivity | exact I].
  - intros [H1 H2]. destruct (py_eq k0 k) eqn:E; cbn [string_ids_once].
    + split; assumption.
    + split; [| now apply IH]. intros i ->. rewrite rget_rset.
      rewrite (H1 i eq_refl).
      destruct (py_eq k (VStr i)) eqn:E'; [| reflexivity].
      apply py_eq_str in E'. subst k. cbn [py_eq] in E.
      now rewrite String.eqb_refl in E.
Qed.

Lemma fold_register_string_ids_once
    (l : list (value * Manager.resource_info)) :
  forall reg, string_ids_once reg -> string_ids_once (fold_left register l reg).
Proof.
  induction l as [| c l IH]; intros reg H; [exact H |].
  cbn [fold_left]. apply IH. now apply rset_string_ids_once.
Qed.

Lemma rget_of_In reg (i : string) info :
  string_ids_once reg -> In (VStr i, info) reg ->
  Manager.rget reg (VStr i) = Some info.
Proof.
  induction reg as [| [k0 v0] reg IH]; [intros _ [] |].
  cbn [string_ids_once Manager.rget]. intros [H1 H2] [[= -> ->] | I].
  - cbn [py_eq]. now rewrite String.eqb_refl.
  - destruct (py_eq k0 (VStr i)) eqn:E; [| now apply IH].
    apply py_eq_str in E. subst k0.
    specialize (H1 i eq_refl). rewrite (IH H2 I) in H1. discriminate H1.
Qed.

Lemma insert_by_In (A : Type) (key : A -> value) (x : A) (l r : list A) :
  Manager.insert_by key x l = Ok r -> forall z, In z r -> z = x \/ In z l.
Proof.
  revert r. induction l as [| y l IH]; intros r; cbn [Manager.insert_by].
  - intros [= <-] z [<- | []]. now left.
  - destruct (py_lt (key y) (key x)) as [[|]|]; cbn [bind];
      try discriminate.
    + destruct (Manager.insert_by key x l) as [r'|]; [| discriminate].
      cbn [bind]. intros [= <-] z [<- | I]; [right; now left |].
      destruct (IH r' eq_refl z I); [now left | right; now right].
    + intros [= <-] z [<- | I]; [now left | now right].
Qed.

Lemma py_sorted_In (A : Type) (key : A -> value) (l r : list A) :
  Manager.py_sorted key l = Ok r -> forall z, In z r -> In z l.
Proof.
  revert r. induction l as [| x l IH]; intros r; cbn [Manager.py_sorted].
  - now intros [= <-].
  - destruct (Manager.py_sorted key l) as [s|]; [| discriminate].
    cbn [bind]. intros E z I.
    destruct (insert_by_In _ _ _ E z I) as [-> | I'];
      [now left | right; now apply (IH s)].
Qed.

Lemma list_loop_In entity_filter (reg : Manager.registry) :
  forall acc listed,
    for_each (Manager.list_step entity_filter) reg acc = Ok listed ->
    forall r, In r listed ->
      In r acc \/
      exists id info, In (id, info) reg /\ r = Manager.describe id info.
Proof.
  induction reg as [| [id info] reg IH]; intros acc listed; cbn [for_each].
  - intros [= <-] r I. now left.
  - destruct (Manager.list_step entity_filter acc (id, info)) as [acc'|] eqn:S;
      [| discriminate].
    cbn [bind]. intros E r I.
    destruct (IH _ _ E r I) as [I' | (id' & info' & I' & ->)].
    + unfold Manager.list_step in S.
      destruct (match entity_filter with
                | Some f => _
                | None => _
                end) as [[|]|]; cbn [bind] in S; try discriminate;
        injection S as <-; [now left |].
      apply in_app_or in I' as [I' | [<- | []]]; [now left |].
      right. exists id, info. split; [now left | reflexivity].
    + right. exists id', info'. split; [now right | reflexivity].
Qed.

End ListedThenCleaned.

(** X20.  A resource listed from a registry loaded from the directory,
    whose identifier is a string, is found by the cleanup planner: the plan
    for its identifier is one item, naming the resource key and the file
    the listing names. *)
Theorem cleanup_of_listed fs reg entity_filter listed r (i : string) :
  loadable fs = true ->
  Manager.load_configurations fs = Ok reg ->
  Manager.list_backstage_resources reg entity_filter = Ok listed ->
  In r listed ->
  Manager.r_backstage_id r = VStr i ->
  Manager.resources_to_remove (Manager.generate_cleanup_config reg [i])
  = [{| Manager.x_backstage_id := i;
        Manager.x_resource_name := Manager.r_resource_name r;
        Manager.x_source_file := Manager.r_source_file r;
        Manager.x_terraform_resource :=
          Manager.get_terraform_resource_name
            (Manager.r_source_file r) (Manager.r_resource_name r) |}].
Proof.
  intros L E Li I B.
  rewrite (@load_records fs L) in E. injection E as <-.
  unfold Manager.list_backstage_resources in Li.
  destruct (for_each (Manager.list_step entity_filter) _ [])
    as [resources|] eqn:Lo; [| discriminate].
  cbn [bind] in Li. apply (py_sorted_In _ _ Li) in I.
  destruct (list_loop_In _ _ _ Lo r I) as [[] | (id & info & I' & ->)].
  cbn [Manager.r_backstage_id Manager.describe] in B. subst id.
  assert (G : Manager.rget (fold_left register (candidates fs) [])
                (VStr i) = Some info).
  { apply rget_of_In; [| exact I'].
    now apply fold_register_string_ids_once. }
  cbn [Manager.generate_cleanup_config Manager.resources_to_remove
       Manager.removals]. now rewrite G.
Qed.

Lemma cleanup_of_listed_witness :
  Manager.resources_to_remove
    (Manager.generate_cleanup_config RegistrySamples.reg
       ["old-app-test-20250901120000"])
  = [{| Manager.x_backstage_id := "old-app-test-20250901120000";
        Manager.x_resource_name := "old_app_server";
        Manager.x_source_file := "a-records.yaml";
        Manager.x_terraform_resource :=
          "infoblox_a_record.old_app_server" |}].
Proof.
  apply (@cleanup_of_listed RegistrySamples.directory RegistrySamples.reg
           (Some "old-ap") [RegistrySamples.old_app_resource]
           RegistrySamples.old_app_resource
           "old-app-test-20250901120000");
    try reflexivity.
  now left.
Defined.
